(** * Semantic Kernel (Python): the function-invocation core

    A shallow embedding of [semantic_kernel/kernel.py],
    [semantic_kernel/orchestration/sk_function.py],
    [semantic_kernel/semantic_functions/chat_prompt_template.py] and
    [semantic_kernel/models/chat/chat_message.py], and the properties of the
    pipeline, of streaming, of chat templates and of the AI service registry
    proved about it.

    Conventions.
    - A Python exception is a value of [exn]; a call that may raise returns an
      [outcome].
    - Python objects that the code mutates in place are passed as values and
      returned updated.  A call that raises after mutating the Context it was
      given reports the state in which it left that Context.
    - The collaborators outside the core (native procedures, event handlers,
      the LLM client, the template engine) are arbitrary code: they read and
      write a state [World] that the core only threads through.
    - [while True] in [Kernel.run_async] has no bound in the source; the
      embedding gives each loop a number of iterations [fuel] and answers
      [RunOutOfFuel] when they are used up. *)

From stdpp Require Import base option list gmap strings fin_maps.

Set Warnings "-register-all".

Open Scope string_scope.
Open Scope list_scope.

(** ** Python values shared by the modules *)

(** Truth value of a Python [str]: the empty string is falsy. *)
Definition truthy (s : string) : bool :=
  match s with
  | EmptyString => false
  | _ => true
  end.

(** Truth value of an [Optional[str]]: [None] and [""] are falsy. *)
Definition truthy_opt (o : option string) : bool :=
  match o with
  | Some s => truthy s
  | None => false
  end.

Inductive exn_kind :=
| ValueError
| KeyError
| IndexError
| AttributeError
| AssertionError
| KernelException_FunctionInvokeError
| KernelException_InvalidFunctionType
| Fault.

(** An exception: its class and the text [str(e)] gives. [Fault] stands for
    whatever a native procedure, a handler, the template engine or the LLM
    client raises. *)
Record exn := Exn { exn_class : exn_kind; exn_message : string }.

Definition str (e : exn) : string := exn_message e.

Inductive outcome (A : Type) :=
| Ret (a : A)
| Raise (e : exn).
Arguments Ret {A} a.
Arguments Raise {A} e.

(** ** Python's [dict]: insertion-ordered, keys unique

    [Kernel] relies on the order ([next(iter(d), None)] is the oldest key
    left), so the dictionaries of the kernel are association lists kept
    without duplicate keys. *)
Module PyDict.
Section Dict.
Context {K V : Type} `{EqDecision K}.

Definition dict := list (K * V).

(** [list(d.keys())] *)
Definition keys (d : dict) : list K := d.*1.

(** [k in d] *)
Definition contains (k : K) (d : dict) : bool := bool_decide (k ∈ keys d).

(** [d[k]], [None] standing for [KeyError] *)
Fixpoint getitem (k : K) (d : dict) : option V :=
match d with
| [] => None
| (k', v) :: d' => if decide (k = k') then Some v else getitem k d'
end.

(** [d[k] = v]: an existing key keeps its place, a new key goes last. *)
Fixpoint setitem (k : K) (v : V) (d : dict) : dict :=
match d with
| [] => [(k, v)]
| (k', v') :: d' =>
    if decide (k = k') then (k, v) :: d' else (k', v') :: setitem k v d'
end.

(** [del d[k]] (the callers check [k in d] first) *)
Fixpoint delitem (k : K) (d : dict) : dict :=
match d with
| [] => []
| (k', v') :: d' =>
    if decide (k = k') then d' else (k', v') :: delitem k d'
end.

(** [next(iter(d), None)] *)
Definition first_key (d : dict) : option K := head (keys d).

(** [d.values()] *)
Definition values (d : dict) : list V := d.*2.
End Dict.
Arguments dict : clear implicits.
End PyDict.

(** ** ContextVariables *)
Module ContextVariables.

(** Modelled from the spec: [orchestration/context_variables.py] is not
    among the sources.  "Mapping from variable name to string value, plus
    one distinguished input slot". *)
Record t := Make { input : string; variables : gmap string string }.

(** Modelled from the spec: [ContextVariables(content)]; without content the
    input slot holds the empty string. *)
Definition create (content : option string) : t :=
  {| input := default "" content; variables := ∅ |}.

(** Modelled from the spec: "update with a single positional value sets the
    distinguished input slot". *)
Definition update (content : string) (self : t) : t :=
  {| input := content; variables := variables self |}.

(** Modelled from the spec: "with a name, sets that named slot". *)
Definition set (name value : string) (self : t) : t :=
  {| input := input self; variables := <[name := value]> (variables self) |}.

(** Modelled from the spec: "merge(new, overwrite) either keeps existing keys
    (overwrite=false, only fills gaps) or replaces them"; the input slot of
    [self] is dropped only when overwritten.  The union of [gmap] is
    left-biased. *)
Definition merge_or_overwrite (self new_vars : t) (overwrite : bool) : t :=
  if overwrite
  then {| input := input new_vars;
          variables := variables new_vars ∪ variables self |}
  else {| input := input self;
          variables := variables self ∪ variables new_vars |}.

End ContextVariables.

(** ** SKContext *)
Module SKContext.

(** Modelled from the spec: [orchestration/sk_context.py] is not among the
    sources.  Variables, references to the memory and to the function
    registry, the error flag with its message and exception, and the bag of
    objects. *)
Record t := Make {
  variables : ContextVariables.t;
  memory : nat;
  skills : option nat;
  error_occurred : bool;
  last_error_description : string;
  last_exception : option exn;
  objects : gmap string string
}.

(** [SKContext(variables, memory, skill_collection)] *)
Definition create (vars : ContextVariables.t) (mem : nat)
    (skill_collection : option nat) : t :=
  {| variables := vars; memory := mem; skills := skill_collection;
     error_occurred := false; last_error_description := "";
     last_exception := None; objects := ∅ |}.

(** Modelled from the spec: "fail(message, exception) sets the error flag
    and stores both the message and the originating fault". *)
Definition fail (self : t) (message : string) (e : exn) : t :=
  {| variables := variables self; memory := memory self;
     skills := skills self;
     error_occurred := true; last_error_description := message;
     last_exception := Some e; objects := objects self |}.

(** [context.variables = v] *)
Definition set_variables (self : t) (v : ContextVariables.t) : t :=
  {| variables := v; memory := memory self; skills := skills self;
     error_occurred := error_occurred self;
     last_error_description := last_error_description self;
     last_exception := last_exception self; objects := objects self |}.

(** [context.variables.update(content)] *)
Definition update_input (self : t) (content : string) : t :=
  set_variables self (ContextVariables.update content (variables self)).

(** [context.memory = m] *)
Definition set_memory (self : t) (m : nat) : t :=
  {| variables := variables self; memory := m; skills := skills self;
     error_occurred := error_occurred self;
     last_error_description := last_error_description self;
     last_exception := last_exception self; objects := objects self |}.

(** [context.skills = s] *)
Definition set_skills (self : t) (s : option nat) : t :=
  {| variables := variables self; memory := memory self; skills := s;
     error_occurred := error_occurred self;
     last_error_description := last_error_description self;
     last_exception := last_exception self; objects := objects self |}.

(** [context.objects[key] = value] *)
Definition set_object (self : t) (key value : string) : t :=
  {| variables := variables self; memory := memory self;
     skills := skills self;
     error_occurred := error_occurred self;
     last_error_description := last_error_description self;
     last_exception := last_exception self;
     objects := <[key := value]> (objects self) |}.

(** The distinguished input slot. *)
Definition input (self : t) : string := ContextVariables.input (variables self).

End SKContext.

Abbreviation SKContext := SKContext.t.
Abbreviation ContextVariables := ContextVariables.t.

(** ** The template engine

    [PromptTemplate.render_async] belongs to the template engine, which is
    outside the core: the core depends on its contract only, rendering a
    template text against a Context to a string, or a fault. *)
Class PromptTemplatingEngine (World : Type) := {
  render_async : string -> SKContext -> World -> outcome string * World
}.

(** A message or a function result as a Python [dict] of strings. *)
Abbreviation pydict := (PyDict.dict string string).

(** ** ChatMessage ([models/chat/chat_message.py]) *)
Module ChatMessage.

(** [content_template] holds the text of the [PromptTemplate] of the
    message. *)
Record t := Make {
  role : option string;
  fixed_content : option string;
  content_template : option string
}.

Definition content (self : t) : option string := fixed_content self.

Section Render.
Context {World : Type} `{PromptTemplatingEngine World}.

(** The message after the call, and the fault of the engine if it raised. *)
Definition render_message_async (self : t) (context : SKContext) (w : World)
    : (t * option exn) * World :=
  match fixed_content self with
  | None =>
      match content_template self with
      | Some tpl =>
          match render_async tpl context w with
          | (Ret s, w') =>
              ({| role := role self; fixed_content := Some s;
                  content_template := content_template self |}, None, w')
          | (Raise e, w') => (self, Some e, w')
          end
      | None => (self, None, w)
      end
  | Some _ => (self, None, w)
  end.
End Render.

(** [model_dump(exclude_none=True, by_alias=True, exclude={"content_template"})]:
    the fields in declaration order, [fixed_content] under its alias
    ["content"], a field that is [None] left out. *)
Definition as_dict (self : t) : pydict :=
  match role self with Some r => [("role", r)] | None => [] end ++
  match fixed_content self with Some c => [("content", c)] | None => [] end.

End ChatMessage.

Abbreviation ChatMessage := ChatMessage.t.

(** The part of [PromptTemplateConfig] that the chat template reads:
    [completion.extension_data], the attribute [completion.chat_system_prompt]
    and [completion.messages] (empty when the settings have none). *)
Record PromptTemplateConfig := {
  extension_data : gmap string string;
  chat_system_prompt : option string;
  completion_messages : list pydict
}.

(** ** ChatPromptTemplate ([semantic_functions/chat_prompt_template.py]) *)
Module ChatPromptTemplate.

Record t := Make {
  template : string;
  prompt_config : PromptTemplateConfig;
  messages : list ChatMessage
}.

(** [add_message(role, message)]: the message gets a template only when its
    text is truthy.  Keyword extras are read by subclasses of [ChatMessage]
    only; the base message has no field for them. *)
Definition add_message (self : t) (role : string) (message : option string) : t :=
  {| template := template self;
     prompt_config := prompt_config self;
     messages := messages self ++
       [ {| ChatMessage.role := Some role;
            ChatMessage.fixed_content := None;
            ChatMessage.content_template :=
              if truthy_opt message then message else None |} ] |}.

Definition add_system_message (self : t) (message : string) : t :=
  add_message self "system" (Some message).

Definition add_user_message (self : t) (message : string) : t :=
  add_message self "user" (Some message).

Definition add_assistant_message (self : t) (message : string) : t :=
  add_message self "assistant" (Some message).



(** The test of [render_messages_async]: no message yet, or the last one is
    the assistant's or the system's. *)
Definition ends_without_user (self : t) : bool :=
  match last (messages self) with
  | None => true
  | Some m =>
      bool_decide (ChatMessage.role m = Some "assistant")
      || bool_decide (ChatMessage.role m = Some "system")
  end.

Section Render.
Context {World : Type} `{PromptTemplatingEngine World}.

(** [asyncio.gather] over [m.render_message_async(context)] for each
    message [m]: every message is rendered, in the order of the list; the first fault
    is the one [gather] raises. *)
Fixpoint gather_render (ms : list ChatMessage) (context : SKContext) (w : World)
    : (list ChatMessage * option exn) * World :=
  match ms with
  | [] => ([], None, w)
  | m :: ms' =>
      let '(m1, e1, w1) := ChatMessage.render_message_async m context w in
      let '(ms1, e2, w2) := gather_render ms' context w1 in
      (m1 :: ms1, match e1 with Some e => Some e | None => e2 end, w2)
  end.

(** The list of dicts returned (or the fault), and the template after the
    call. *)
Definition render_messages_async (self : t) (context : SKContext) (w : World)
    : (outcome (list pydict) * t) * World :=
  let self1 :=
    if ends_without_user self then add_user_message self (template self)
    else self in
  let '(ms, e, w') := gather_render (messages self1) context w in
  let self2 := {| template := template self1;
                  prompt_config := prompt_config self1;
                  messages := ms |} in
  match e with
  | Some e => (Raise e, self2, w')
  | None => (Ret (ChatMessage.as_dict <$> ms), self2, w')
  end.
End Render.



End ChatPromptTemplate.

Abbreviation ChatPromptTemplate := ChatPromptTemplate.t.

(** ** SKFunction ([orchestration/sk_function.py]) *)

(** [AIRequestSettings]: an open set of options. *)
Abbreviation AIRequestSettings := (gmap string string).

(** [FunctionView], what [describe] returns (the parameter list, metadata
    only, is left out). *)
Record FunctionView := {
  view_name : string;
  view_skill_name : string;
  view_description : string;
  view_is_semantic : bool
}.

(** What a call that was handed a Context object ends with: the Context it
    returns, or an exception together with the state in which the Context it
    was handed is left. *)
Inductive delegate_outcome :=
| Returned (c : SKContext)
| Raised (e : exn) (c : SKContext).

(** What a generator run to its end has produced: the chunks yielded, in
    order, the exception that ended it if one did, and the Context it
    worked on. *)
Record stream_run := {
  yielded : list string;
  raised : option exn;
  context_after : SKContext
}.

(** What a chat completion answers: a text, or a tuple
    [(completion, tool_message, function_call)]. *)
Inductive chat_reply :=
| ReplyText (completion : option string)
| ReplyTuple (completion tool_message function_call : option string).

Inductive chat_result :=
| OneReply (r : chat_reply)
| ReplyList (rs : list chat_reply).

(** An item of a chat stream: a [str], or an object with a tool message and
    an iterable of parts, which may raise after some of them. *)
Inductive chat_partial :=
| PartialStr (s : string)
| PartialObject (tool_message : option string) (parts : list string)
    (fault : option exn).

(** What a native procedure returns. *)
Inductive native_return :=
| ReturnsNone
| ReturnsStr (s : string)
| ReturnsContext (c : SKContext).

Module SKFunction.
Section WithWorld.
Context {World : Type} `{PromptTemplatingEngine World}.

(** The capability contracts of the AI client (consumed by the core).  A
  stream is the chunks it delivers and the fault that ends it, if any. *)
Record Client := {
complete_async : string -> AIRequestSettings -> World -> outcome string * World;
complete_stream_async :
  string -> AIRequestSettings -> World -> (list string * option exn) * World;
complete_chat_async :
  list pydict -> AIRequestSettings -> World -> outcome chat_result * World;
complete_chat_stream_async :
  list pydict -> AIRequestSettings -> World
  -> (list chat_partial * option exn) * World
}.

(** A procedure decorated with [sk_function]: called, it answers with a
  value or a fault and leaves the Context it was handed in some state;
  iterated, it delivers chunks. *)
Record NativeMethod := {
call : SKContext -> World -> (outcome native_return * SKContext) * World;
iterate : SKContext -> World -> stream_run * World
}.

(** [function_config.prompt_template]: a [PromptTemplate] with its text, or
  a [ChatPromptTemplate], a mutable object shared by reference. *)
Inductive prompt_template_ref :=
| TextTemplate (template : string)
| ChatTemplate (loc : nat).

Record SemanticFunctionConfig := {
prompt_template : prompt_template_ref
}.

(** [has_chat_prompt]: the template is a [ChatPromptTemplate]. *)
Definition has_chat_prompt (cfg : SemanticFunctionConfig) : bool :=
match prompt_template cfg with
| ChatTemplate _ => true
| TextTemplate _ => false
end.

(** [_function]: the decorated method ([from_native_method]) or the closures
  [_local_func] and [_local_stream_func] over a configuration
  ([from_semantic_config]). *)
Inductive delegate_function :=
| Native (method : NativeMethod)
| Semantic (function_config : SemanticFunctionConfig).

Record t := Make {
_name : string;
_skill_name : string;
_description : string;
_function : delegate_function;
_skill_collection : option nat;
_ai_service : option Client;
_ai_request_settings : AIRequestSettings
}.

Definition is_semantic (self : t) : bool :=
match _function self with
| Semantic _ => true
| Native _ => false
end.

Definition from_native_method (method : NativeMethod)
  (name description skill_name : string) : t :=
{| _name := name; _skill_name := skill_name; _description := description;
   _function := Native method; _skill_collection := None;
   _ai_service := None; _ai_request_settings := ∅ |}.

Definition from_semantic_config (skill_name function_name description : string)
  (function_config : SemanticFunctionConfig) : t :=
{| _name := function_name; _skill_name := skill_name;
   _description := description;
   _function := Semantic function_config; _skill_collection := None;
   _ai_service := None; _ai_request_settings := ∅ |}.

Definition describe (self : t) : FunctionView :=
{| view_name := _name self; view_skill_name := _skill_name self;
   view_description := _description self;
   view_is_semantic := is_semantic self |}.

(** The state outside the Contexts: the world of the collaborators and the
  chat templates, which functions share by reference. *)
Record Store := {
world : World;
templates : gmap nat ChatPromptTemplate
}.

Definition set_world (st : Store) (w : World) : Store :=
{| world := w; templates := templates st |}.

Definition set_template (st : Store) (loc : nat) (tpl : ChatPromptTemplate)
  (w : World) : Store :=
{| world := w; templates := <[loc := tpl]> (templates st) |}.

(** The template a reference points to. *)
Definition deref (st : Store) (loc : nat) : ChatPromptTemplate :=
default (ChatPromptTemplate.Make ""
           {| extension_data := ∅; chat_system_prompt := None;
              completion_messages := [] |} [])
        (templates st !! loc).

(** [NullMemory.instance] *)
Definition null_memory : nat := 0.

(** The opening lines shared by [invoke_async] and [invoke_stream_async]:
  build a Context when none is given, else merge the variables and set the
  memory; then write the input. *)
Definition prepare_context (self : t) (input : option string)
  (variables : option ContextVariables) (context : option SKContext)
  (memory : option nat) : SKContext :=
let context :=
  match context with
  | None =>
      SKContext.create
        (match variables with
         | None => ContextVariables.create (Some "")
         | Some v => v
         end)
        (default null_memory memory)
        (_skill_collection self)
  | Some context =>
      let context :=
        match variables with
        | Some v =>
            SKContext.set_variables context
              (ContextVariables.merge_or_overwrite v
                 (SKContext.variables context) false)
        | None => context
        end in
      match memory with
      | Some m => SKContext.set_memory context m
      | None => context
      end
  end in
match input with
| Some i => SKContext.update_input context i
| None => context
end.

Definition _ensure_context_has_skills (self : t) (context : SKContext) : SKContext :=
match SKContext.skills context with
| Some _ => context
| None => SKContext.set_skills context (_skill_collection self)
end.

(** [result = result[0]] for a list, then the unpacking of a tuple. *)
Definition unpack_chat_result (result : chat_result)
  : outcome (option string * option string * option string) :=
let unpack r :=
  match r with
  | ReplyTuple completion tool_message function_call =>
      (completion, tool_message, function_call)
  | ReplyText completion => (completion, None, None)
  end in
match result with
| OneReply r => Ret (unpack r)
| ReplyList [] => Raise (Exn IndexError "list index out of range")
| ReplyList (r :: _) => Ret (unpack r)
end.

(** [_local_func], the delegate of a semantic function. *)
Definition _local_func (function_config : SemanticFunctionConfig)
  (client : option Client) (request_settings : AIRequestSettings)
  (context : SKContext) (st : Store) : delegate_outcome * Store :=
match client with
| None => (Raised (Exn ValueError "AI LLM service cannot be `None`") context, st)
| Some client =>
    match prompt_template function_config with
    | TextTemplate tpl =>
        (* try *)
        match render_async tpl context (world st) with
        | (Raise e, w1) =>
            (Returned (SKContext.fail context (str e) e), set_world st w1)
        | (Ret prompt, w1) =>
            match complete_async client prompt request_settings w1 with
            | (Raise e, w2) =>
                (Returned (SKContext.fail context (str e) e), set_world st w2)
            | (Ret completion, w2) =>
                (Returned (SKContext.update_input context completion),
                 set_world st w2)
            end
        end
    | ChatTemplate loc =>
        let as_chat_prompt := deref st loc in
        match ChatPromptTemplate.render_messages_async as_chat_prompt context
                (world st) with
        | (Raise e, chat1, w1) => (Raised e context, set_template st loc chat1 w1)
        | (Ret messages, chat1, w1) =>
            (* try *)
            match complete_chat_async client messages request_settings w1 with
            | (Raise exc, w2) =>
                (Returned (SKContext.fail context (str exc) exc),
                 set_template st loc chat1 w2)
            | (Ret result, w2) =>
                match unpack_chat_result result with
                | Raise exc =>
                    (Returned (SKContext.fail context (str exc) exc),
                     set_template st loc chat1 w2)
                | Ret (completion, tool_message, function_call) =>
                    let '(context, chat2) :=
                      if truthy_opt tool_message
                      then (SKContext.set_object context "tool_message"
                              (default "" tool_message),
                            ChatPromptTemplate.add_message chat1 "tool" tool_message)
                      else (context, chat1) in
                    let chat3 :=
                      ChatPromptTemplate.add_message chat2 "assistant" completion in
                    let context :=
                      match completion with
                      | Some c => SKContext.update_input context c
                      | None => context
                      end in
                    let context :=
                      match function_call with
                      | Some fc => SKContext.set_object context "function_call" fc
                      | None => context
                      end in
                    (Returned context, set_template st loc chat3 w2)
                end
            end
        end
    end
end.

Definition kernel_exception_invalid_semantic : exn :=
Exn KernelException_InvalidFunctionType
    "Invalid operation, the method requires a semantic function".

Definition kernel_exception_invalid_native : exn :=
Exn KernelException_InvalidFunctionType
    "Invalid operation, the method requires a native function".

(** [_invoke_semantic_async].  [_local_func] returns the Context object it
  was given, so [new_context] and [context] are one object and the merge
  is of the variables with themselves. *)
Definition _invoke_semantic_async (self : t) (context : SKContext)
  (settings : option AIRequestSettings) (st : Store) : delegate_outcome * Store :=
match _function self with
| Native _ => (* _verify_is_semantic *)
    (Raised kernel_exception_invalid_semantic context, st)
| Semantic function_config =>
    let context := _ensure_context_has_skills self context in
    match _local_func function_config (_ai_service self)
            (default (_ai_request_settings self) settings) context st with
    | (Raised e c, st') => (Raised e c, st')
    | (Returned new_context, st') =>
        (Returned
           (SKContext.set_variables new_context
              (ContextVariables.merge_or_overwrite
                 (SKContext.variables new_context)
                 (SKContext.variables new_context) false)),
         st')
    end
end.

(** Modelled from the spec: [DelegateHandlers] is not among the sources.
  "If the procedure returns a string, it is written back into the
  Context's input slot; if it returns a Context, that Context replaces the
  pipeline's current one". *)
Definition delegate (method : NativeMethod) (context : SKContext) (w : World)
  : delegate_outcome * World :=
match call method context w with
| (Ret ReturnsNone, c, w') => (Returned c, w')
| (Ret (ReturnsStr s), c, w') => (Returned (SKContext.update_input c s), w')
| (Ret (ReturnsContext c'), _, w') => (Returned c', w')
| (Raise e, c, w') => (Raised e c, w')
end.

Definition _invoke_native_async (self : t) (context : SKContext) (st : Store)
  : delegate_outcome * Store :=
match _function self with
| Semantic _ => (* _verify_is_native *)
    (Raised kernel_exception_invalid_native context, st)
| Native method =>
    let context := _ensure_context_has_skills self context in
    let '(r, w') := delegate method context (world st) in
    (r, set_world st w')
end.

(** The body of the [try] of [invoke_async]. *)
Definition try_body (self : t) (context : SKContext)
  (settings : option AIRequestSettings) (st : Store) : delegate_outcome * Store :=
if is_semantic self
then _invoke_semantic_async self context settings st
else _invoke_native_async self context st.

(** [invoke_async]: whatever the invocation raises is recorded on the
  Context, which is returned. *)
Definition invoke_async (self : t) (input : option string)
  (variables : option ContextVariables) (context : option SKContext)
  (memory : option nat) (settings : option AIRequestSettings) (st : Store)
  : SKContext * Store :=
let context := prepare_context self input variables context memory in
let '(r, st') := try_body self context settings st in
match r with
| Returned c => (c, st')
| Raised e c => (SKContext.fail c (str e) e, st')
end.

(** [completion += partial_content] over the chunks of a stream *)
Definition accumulate (completion : string) (chunks : list string) : string :=
foldl String.append completion chunks.

(** The loop of [_local_stream_func] over a chat stream.  Answers the chunks
  yielded, the completion gathered, the template and the Context as the
  loop leaves them, and the fault of an item's parts if one was raised. *)
Fixpoint consume_chat_stream (items : list chat_partial) (completion : string)
  (chat_prompt : ChatPromptTemplate) (context : SKContext)
  : list string * string * ChatPromptTemplate * SKContext * option exn :=
match items with
| [] => ([], completion, chat_prompt, context, None)
| PartialStr s :: rest =>
    let '(ys, c, chat, ctx, e) :=
      consume_chat_stream rest (String.append completion s) chat_prompt context in
    (s :: ys, c, chat, ctx, e)
| PartialObject tool_message parts fault :: rest =>
    let '(chat_prompt, context) :=
      if truthy_opt tool_message
      then (ChatPromptTemplate.add_message chat_prompt "tool" tool_message,
            SKContext.set_object context "tool_message" (default "" tool_message))
      else (chat_prompt, context) in
    let completion := accumulate completion parts in
    match fault with
    | Some e => (parts, completion, chat_prompt, context, Some e)
    | None =>
        let '(ys, c, chat, ctx, e) :=
          consume_chat_stream rest completion chat_prompt context in
        (parts ++ ys, c, chat, ctx, e)
    end
end.

(** [_local_stream_func], the streaming delegate of a semantic function,
  consumed to its end. *)
Definition _local_stream_func (function_config : SemanticFunctionConfig)
  (client : option Client) (request_settings : AIRequestSettings)
  (context : SKContext) (st : Store) : stream_run * Store :=
match client with
| None =>
    ({| yielded := [];
        raised := Some (Exn ValueError "AI LLM service cannot be `None`");
        context_after := context |}, st)
| Some client =>
    (* try *)
    match prompt_template function_config with
    | ChatTemplate loc =>
        let chat_prompt := deref st loc in
        match ChatPromptTemplate.render_messages_async chat_prompt context
                (world st) with
        | (Raise e, chat1, w1) =>
            ({| yielded := []; raised := None;
                context_after := SKContext.fail context (str e) e |},
             set_template st loc chat1 w1)
        | (Ret messages, chat1, w1) =>
            let '(items, stream_fault, w2) :=
              complete_chat_stream_async client messages request_settings w1 in
            let '(ys, completion, chat2, context, part_fault) :=
              consume_chat_stream items "" chat1 context in
            match (match part_fault with Some e => Some e | None => stream_fault end) with
            | Some e =>
                ({| yielded := ys; raised := None;
                    context_after := SKContext.fail context (str e) e |},
                 set_template st loc chat2 w2)
            | None =>
                ({| yielded := ys; raised := None;
                    context_after := SKContext.update_input context completion |},
                 set_template st loc
                   (ChatPromptTemplate.add_assistant_message chat2 completion) w2)
            end
        end
    | TextTemplate tpl =>
        match render_async tpl context (world st) with
        | (Raise e, w1) =>
            ({| yielded := []; raised := None;
                context_after := SKContext.fail context (str e) e |},
             set_world st w1)
        | (Ret prompt, w1) =>
            let '(chunks, stream_fault, w2) :=
              complete_stream_async client prompt request_settings w1 in
            let completion := accumulate "" chunks in
            match stream_fault with
            | Some e =>
                ({| yielded := chunks; raised := None;
                    context_after := SKContext.fail context (str e) e |},
                 set_world st w2)
            | None =>
                ({| yielded := chunks; raised := None;
                    context_after := SKContext.update_input context completion |},
                 set_world st w2)
            end
        end
    end
end.

Definition _invoke_semantic_stream_async (self : t) (context : SKContext)
  (settings : option AIRequestSettings) (st : Store) : stream_run * Store :=
match _function self with
| Native _ => (* _verify_is_semantic *)
    ({| yielded := []; raised := Some kernel_exception_invalid_semantic;
        context_after := context |}, st)
| Semantic function_config =>
    let context := _ensure_context_has_skills self context in
    _local_stream_func function_config (_ai_service self)
      (default (_ai_request_settings self) settings) context st
end.

Definition _invoke_native_stream_async (self : t) (context : SKContext)
  (st : Store) : stream_run * Store :=
match _function self with
| Semantic _ => (* _verify_is_native *)
    ({| yielded := []; raised := Some kernel_exception_invalid_native;
        context_after := context |}, st)
| Native method =>
    let context := _ensure_context_has_skills self context in
    let '(r, w') := iterate method context (world st) in
    match raised r with
    | Some e => (r, set_world st w')
    | None =>
        ({| yielded := yielded r; raised := None;
            context_after :=
              SKContext.update_input (context_after r) (accumulate "" (yielded r)) |},
         set_world st w')
    end
end.

Definition kernel_exception_stream : exn :=
Exn KernelException_FunctionInvokeError
    "Error occurred while invoking stream function".

(** [invoke_stream_async], consumed to its end: an exception of the
  stream is recorded on the Context and a [KernelException] is raised in
  its place. *)
Definition invoke_stream_async (self : t) (input : option string)
  (variables : option ContextVariables) (context : option SKContext)
  (memory : option nat) (settings : option AIRequestSettings) (st : Store)
  : stream_run * Store :=
let context := prepare_context self input variables context memory in
let '(r, st') :=
  if is_semantic self
  then _invoke_semantic_stream_async self context settings st
  else _invoke_native_stream_async self context st in
match raised r with
| None => (r, st')
| Some e =>
    ({| yielded := yielded r; raised := Some kernel_exception_stream;
        context_after := SKContext.fail (context_after r) (str e) e |}, st')
end.

(** *** The parameters of a native function *)

(** [ParameterView] ([skill_definition/parameter_view.py]) *)
Record ParameterView := {
  name : string;
  description : string;
  default_value : string;
  type_ : string;
  required : bool
}.

(** An entry of [__sk_function_context_parameters__]: a [dict], each of its
    keys present or not. *)
Record parameter_descriptor := {
  d_name : option string;
  d_description : option string;
  d_default_value : option string;
  d_type : option string;
  d_required : option bool
}.

(** The attributes that the decorator leaves on a method; [None] for an
    attribute that is [None] or, for the last one, not there. *)
Record decorated_method := {
  sk_function : option bool;
  sk_function_name : option string;
  sk_function_description : string;
  sk_function_input_description : option string;
  sk_function_input_default_value : string;
  sk_function_context_parameters : option (list parameter_descriptor)
}.

(** [ParameterView(name=..., ...)]: the name goes through
    [validate_function_param_name], which belongs to [utils/validation.py];
    [valid_name] tells the names it accepts. *)
Definition make_parameter_view (valid_name : string -> bool)
  (name description default_value type_ : string) (required : bool)
  : outcome ParameterView :=
  if valid_name name
  then Ret {| name := name; description := description;
              default_value := default_value; type_ := type_;
              required := required |}
  else Raise (Exn Fault "invalid function parameter name").

(** The loop of [from_native_method] over the context parameters. *)
Fixpoint context_parameters (valid_name : string -> bool)
  (params : list parameter_descriptor) : outcome (list ParameterView) :=
  match params with
  | [] => Ret []
  | param :: rest =>
      match d_name param with
      | None => Raise (Exn AssertionError "Parameter name is empty")
      | Some n =>
          match d_description param with
          | None => Raise (Exn AssertionError "Parameter description is empty")
          | Some d =>
              match d_default_value param with
              | None => Raise (Exn AssertionError "Parameter default value is empty")
              | Some v =>
                  match make_parameter_view valid_name n d v
                          (default "string" (d_type param))
                          (default false (d_required param)) with
                  | Raise e => Raise e
                  | Ret view =>
                      match context_parameters valid_name rest with
                      | Raise e => Raise e
                      | Ret views => Ret (view :: views)
                      end
                  end
              end
          end
      end
  end.

(** The parameter list that [from_native_method] builds for a method ([None]
    for no method), or the exception it raises. *)
Definition native_parameters (valid_name : string -> bool)
  (method : option decorated_method) : outcome (list ParameterView) :=
  match method with
  | None => Raise (Exn ValueError "Method cannot be `None`")
  | Some method =>
      match sk_function method with
      | None => Raise (Exn AssertionError "Method is not a SK function")
      | Some _ =>
          match sk_function_name method with
          | None => Raise (Exn AssertionError "Method name is empty")
          | Some _ =>
              match context_parameters valid_name
                      (default [] (sk_function_context_parameters method)) with
              | Raise e => Raise e
              | Ret parameters =>
                  if truthy_opt (sk_function_input_description method)
                  then
                    match make_parameter_view valid_name "input"
                            (default "" (sk_function_input_description method))
                            (sk_function_input_default_value method)
                            "string" false with
                    | Raise e => Raise e
                    | Ret input_param => Ret (input_param :: parameters)
                    end
                  else Ret parameters
              end
          end
      end
  end.

(** *** Binding a function *)

Definition set_default_skill_collection (self : t) (skills : nat) : t :=
  {| _name := _name self; _skill_name := _skill_name self;
     _description := _description self; _function := _function self;
     _skill_collection := Some skills;
     _ai_service := _ai_service self;
     _ai_request_settings := _ai_request_settings self |}.

(** [_verify_is_semantic] *)
Definition _verify_is_semantic (self : t) : outcome unit :=
  if is_semantic self then Ret tt else Raise kernel_exception_invalid_semantic.

(** [_verify_is_native] *)
Definition _verify_is_native (self : t) : outcome unit :=
  if is_semantic self then Raise kernel_exception_invalid_native else Ret tt.

(** [self._ai_service = client; return self] *)
Definition with_ai_service (self : t) (client : Client) : t :=
  {| _name := _name self; _skill_name := _skill_name self;
     _description := _description self; _function := _function self;
     _skill_collection := _skill_collection self;
     _ai_service := Some client;
     _ai_request_settings := _ai_request_settings self |}.

(** [self._ai_request_settings = settings; return self] *)
Definition with_ai_request_settings (self : t) (settings : AIRequestSettings) : t :=
  {| _name := _name self; _skill_name := _skill_name self;
     _description := _description self; _function := _function self;
     _skill_collection := _skill_collection self;
     _ai_service := _ai_service self;
     _ai_request_settings := settings |}.

(** [set_ai_service(ai_service)]: the argument is a factory, called once; it
    is given here by the client it makes, [None] for no factory. *)
Definition set_ai_service (self : t) (ai_service : option Client) : outcome t :=
  match ai_service with
  | None => Raise (Exn ValueError "AI LLM service factory cannot be `None`")
  | Some client =>
      match _verify_is_semantic self with
      | Raise e => Raise e
      | Ret _ => Ret (with_ai_service self client)
      end
  end.

Definition set_chat_service (self : t) (chat_service : option Client) : outcome t :=
  match chat_service with
  | None => Raise (Exn ValueError "Chat LLM service factory cannot be `None`")
  | Some client =>
      match _verify_is_semantic self with
      | Raise e => Raise e
      | Ret _ => Ret (with_ai_service self client)
      end
  end.

Definition set_ai_configuration (self : t) (settings : option AIRequestSettings)
  : outcome t :=
  match settings with
  | None => Raise (Exn ValueError "AI LLM request settings cannot be `None`")
  | Some settings =>
      match _verify_is_semantic self with
      | Raise e => Raise e
      | Ret _ => Ret (with_ai_request_settings self settings)
      end
  end.

Definition set_chat_configuration (self : t) (settings : option AIRequestSettings)
  : outcome t :=
  match settings with
  | None => Raise (Exn ValueError "Chat LLM request settings cannot be `None`")
  | Some settings =>
      match _verify_is_semantic self with
      | Raise e => Raise e
      | Ret _ => Ret (with_ai_request_settings self settings)
      end
  end.

(** *** Faults, for the statements below *)

(** A data-level fault [e] in the invocation of [self] on [context]: raised
  inside the native procedure, or by the AI client during the completion
  of a semantic function (text or chat). *)
Inductive data_fault (self : t) (context : SKContext) (st : Store) (e : exn) : Prop :=
| fault_in_native_procedure method c w' :
  _function self = Native method ->
  call method (_ensure_context_has_skills self context) (world st)
    = (Raise e, c, w') ->
  data_fault self context st e
| fault_in_completion function_config tpl client prompt w1 w2 :
  _function self = Semantic function_config ->
  prompt_template function_config = TextTemplate tpl ->
  _ai_service self = Some client ->
  render_async tpl (_ensure_context_has_skills self context) (world st)
    = (Ret prompt, w1) ->
  complete_async client prompt (_ai_request_settings self) w1 = (Raise e, w2) ->
  data_fault self context st e
| fault_in_chat_completion function_config loc client messages chat1 w1 w2 :
  _function self = Semantic function_config ->
  prompt_template function_config = ChatTemplate loc ->
  _ai_service self = Some client ->
  ChatPromptTemplate.render_messages_async (deref st loc)
    (_ensure_context_has_skills self context) (world st)
    = (Ret messages, chat1, w1) ->
  complete_chat_async client messages (_ai_request_settings self) w1
    = (Raise e, w2) ->
  data_fault self context st e.

End WithWorld.
Arguments Client : clear implicits.
Arguments NativeMethod : clear implicits.
Arguments SemanticFunctionConfig : clear implicits.
Arguments delegate_function : clear implicits.
Arguments t : clear implicits.
Arguments Store : clear implicits.
End SKFunction.

Abbreviation SKFunction := SKFunction.t.

(** ** Events

    Modelled from the spec: [semantic_kernel/events] is not among the
    sources.  "Pre-invocation event carries function descriptor and Context
    and exposes cancel/skip flags settable by handlers; post-invocation event
    exposes cancel/repeat flags". *)
Module FunctionInvokingEventArgs.
Record t := Make {
  function_view : FunctionView;
  context : SKContext;
  is_cancel_requested : bool;
  is_skip_requested : bool
}.
End FunctionInvokingEventArgs.

Module FunctionInvokedEventArgs.
Record t := Make {
  function_view : FunctionView;
  context : SKContext;
  is_cancel_requested : bool;
  is_repeat_requested : bool
}.
End FunctionInvokedEventArgs.

(** An AI client object, with whether it is also a
    [TextCompletionClientBase]. *)
Record client_object := {
  client_id : nat;
  is_text_completion_client : bool
}.

(** What [add_*_service] is given: a client, or a callable making one. *)
Inductive service :=
| Instance (c : client_object)
| Callable (f : nat).

(** What the registry stores: the callable given, or [lambda _: service]. *)
Inductive factory :=
| Given (f : nat)
| Lambda (c : client_object).

(** ** Kernel ([kernel.py]) *)
Module Kernel.

(** The AI service registry of a kernel: per category the services by id,
    in registration order, and the default id. *)
Record services := {
  _text_completion_services : PyDict.dict string factory;
  _chat_services : PyDict.dict string factory;
  _text_embedding_generation_services : PyDict.dict string factory;
  _default_text_completion_service : option string;
  _default_chat_service : option string;
  _default_text_embedding_generation_service : option string
}.

(** The registry of a new kernel ([__init__]). *)
Definition no_services : services :=
  {| _text_completion_services := []; _chat_services := [];
     _text_embedding_generation_services := [];
     _default_text_completion_service := None;
     _default_chat_service := None;
     _default_text_embedding_generation_service := None |}.

(** [service if isinstance(service, Callable) else lambda _: service] *)
Definition as_factory (s : service) : factory :=
  match s with
  | Callable f => Given f
  | Instance c => Lambda c
  end.

Definition already_exists (category service_id : string) : exn :=
  Exn ValueError
    (String.append category
       (String.append " service with service_id '"
          (String.append service_id "' already exists"))).

Definition add_text_completion_service (service_id : string) (s : service)
    (overwrite : bool) (self : services) : outcome services :=
  if negb (truthy service_id)
  then Raise (Exn ValueError "service_id must be a non-empty string")
  else if negb overwrite && PyDict.contains service_id (_text_completion_services self)
  then Raise (already_exists "Text" service_id)
  else
    Ret {| _text_completion_services :=
             PyDict.setitem service_id (as_factory s) (_text_completion_services self);
           _chat_services := _chat_services self;
           _text_embedding_generation_services :=
             _text_embedding_generation_services self;
           _default_text_completion_service :=
             match _default_text_completion_service self with
             | None => Some service_id
             | Some d => Some d
             end;
           _default_chat_service := _default_chat_service self;
           _default_text_embedding_generation_service :=
             _default_text_embedding_generation_service self |}.

Definition add_chat_service (service_id : string) (s : service)
    (overwrite : bool) (self : services) : outcome services :=
  if negb (truthy service_id)
  then Raise (Exn ValueError "service_id must be a non-empty string")
  else if negb overwrite && PyDict.contains service_id (_chat_services self)
  then Raise (already_exists "Chat" service_id)
  else
    let self1 :=
      {| _text_completion_services := _text_completion_services self;
         _chat_services :=
           PyDict.setitem service_id (as_factory s) (_chat_services self);
         _text_embedding_generation_services :=
           _text_embedding_generation_services self;
         _default_text_completion_service := _default_text_completion_service self;
         _default_chat_service :=
           match _default_chat_service self with
           | None => Some service_id
           | Some d => Some d
           end;
         _default_text_embedding_generation_service :=
           _default_text_embedding_generation_service self |} in
    match s with
    | Instance c =>
        if is_text_completion_client c
        then add_text_completion_service service_id s true self1
        else Ret self1
    | Callable _ => Ret self1
    end.

Definition add_text_embedding_generation_service (service_id : string)
    (s : service) (overwrite : bool) (self : services) : outcome services :=
  if negb (truthy service_id)
  then Raise (Exn ValueError "service_id must be a non-empty string")
  else if negb overwrite
          && PyDict.contains service_id (_text_embedding_generation_services self)
  then Raise (already_exists "Embedding" service_id)
  else
    Ret {| _text_completion_services := _text_completion_services self;
           _chat_services := _chat_services self;
           _text_embedding_generation_services :=
             PyDict.setitem service_id (as_factory s)
               (_text_embedding_generation_services self);
           _default_text_completion_service := _default_text_completion_service self;
           _default_chat_service := _default_chat_service self;
           _default_text_embedding_generation_service :=
             match _default_text_embedding_generation_service self with
             | None => Some service_id
             | Some d => Some d
             end |}.

Definition not_exist (service_id : string) : exn :=
  Exn ValueError
    (String.append "AI service with service_id '"
       (String.append service_id "' does not exist")).

Definition set_default_text_completion_service (service_id : string)
    (self : services) : outcome services :=
  if negb (PyDict.contains service_id (_text_completion_services self))
  then Raise (not_exist service_id)
  else
    Ret {| _text_completion_services := _text_completion_services self;
           _chat_services := _chat_services self;
           _text_embedding_generation_services :=
             _text_embedding_generation_services self;
           _default_text_completion_service := Some service_id;
           _default_chat_service := _default_chat_service self;
           _default_text_embedding_generation_service :=
             _default_text_embedding_generation_service self |}.

Definition set_default_chat_service (service_id : string)
    (self : services) : outcome services :=
  if negb (PyDict.contains service_id (_chat_services self))
  then Raise (not_exist service_id)
  else
    Ret {| _text_completion_services := _text_completion_services self;
           _chat_services := _chat_services self;
           _text_embedding_generation_services :=
             _text_embedding_generation_services self;
           _default_text_completion_service := _default_text_completion_service self;
           _default_chat_service := Some service_id;
           _default_text_embedding_generation_service :=
             _default_text_embedding_generation_service self |}.

Definition set_default_text_embedding_generation_service (service_id : string)
    (self : services) : outcome services :=
  if negb (PyDict.contains service_id (_text_embedding_generation_services self))
  then Raise (not_exist service_id)
  else
    Ret {| _text_completion_services := _text_completion_services self;
           _chat_services := _chat_services self;
           _text_embedding_generation_services :=
             _text_embedding_generation_services self;
           _default_text_completion_service := _default_text_completion_service self;
           _default_chat_service := _default_chat_service self;
           _default_text_embedding_generation_service := Some service_id |}.

(** The default after [del d[service_id]]: reassigned to the oldest id left
    when it was the one removed. *)
Definition default_after_removal (service_id : string)
    (remaining : PyDict.dict string factory) (current : option string)
    : option string :=
  if bool_decide (current = Some service_id)
  then PyDict.first_key remaining
  else current.

Definition remove_text_completion_service (service_id : string)
    (self : services) : outcome services :=
  if negb (PyDict.contains service_id (_text_completion_services self))
  then Raise (not_exist service_id)
  else
    let remaining := PyDict.delitem service_id (_text_completion_services self) in
    Ret {| _text_completion_services := remaining;
           _chat_services := _chat_services self;
           _text_embedding_generation_services :=
             _text_embedding_generation_services self;
           _default_text_completion_service :=
             default_after_removal service_id remaining
               (_default_text_completion_service self);
           _default_chat_service := _default_chat_service self;
           _default_text_embedding_generation_service :=
             _default_text_embedding_generation_service self |}.

Definition remove_chat_service (service_id : string)
    (self : services) : outcome services :=
  if negb (PyDict.contains service_id (_chat_services self))
  then Raise (not_exist service_id)
  else
    let remaining := PyDict.delitem service_id (_chat_services self) in
    Ret {| _text_completion_services := _text_completion_services self;
           _chat_services := remaining;
           _text_embedding_generation_services :=
             _text_embedding_generation_services self;
           _default_text_completion_service := _default_text_completion_service self;
           _default_chat_service :=
             default_after_removal service_id remaining (_default_chat_service self);
           _default_text_embedding_generation_service :=
             _default_text_embedding_generation_service self |}.

Definition remove_text_embedding_generation_service (service_id : string)
    (self : services) : outcome services :=
  if negb (PyDict.contains service_id (_text_embedding_generation_services self))
  then Raise (not_exist service_id)
  else
    let remaining :=
      PyDict.delitem service_id (_text_embedding_generation_services self) in
    Ret {| _text_completion_services := _text_completion_services self;
           _chat_services := _chat_services self;
           _text_embedding_generation_services := remaining;
           _default_text_completion_service := _default_text_completion_service self;
           _default_chat_service := _default_chat_service self;
           _default_text_embedding_generation_service :=
             default_after_removal service_id remaining
               (_default_text_embedding_generation_service self) |}.

Definition clear_all_text_completion_services (self : services) : services :=
  {| _text_completion_services := [];
     _chat_services := _chat_services self;
     _text_embedding_generation_services := _text_embedding_generation_services self;
     _default_text_completion_service := None;
     _default_chat_service := _default_chat_service self;
     _default_text_embedding_generation_service :=
       _default_text_embedding_generation_service self |}.

Definition clear_all_chat_services (self : services) : services :=
  {| _text_completion_services := _text_completion_services self;
     _chat_services := [];
     _text_embedding_generation_services := _text_embedding_generation_services self;
     _default_text_completion_service := _default_text_completion_service self;
     _default_chat_service := None;
     _default_text_embedding_generation_service :=
       _default_text_embedding_generation_service self |}.

Definition clear_all_text_embedding_generation_services (self : services) : services :=
  {| _text_completion_services := _text_completion_services self;
     _chat_services := _chat_services self;
     _text_embedding_generation_services := [];
     _default_text_completion_service := _default_text_completion_service self;
     _default_chat_service := _default_chat_service self;
     _default_text_embedding_generation_service := None |}.

Definition clear_all_services (self : services) : services := no_services.

(** The operations on the registry, as one type of requests. *)
Inductive request :=
| AddTextCompletion (service_id : string) (s : service) (overwrite : bool)
| AddChat (service_id : string) (s : service) (overwrite : bool)
| AddTextEmbedding (service_id : string) (s : service) (overwrite : bool)
| SetDefaultTextCompletion (service_id : string)
| SetDefaultChat (service_id : string)
| SetDefaultTextEmbedding (service_id : string)
| RemoveTextCompletion (service_id : string)
| RemoveChat (service_id : string)
| RemoveTextEmbedding (service_id : string)
| ClearTextCompletion
| ClearChat
| ClearTextEmbedding
| ClearAll.

Definition perform (r : request) (self : services) : outcome services :=
  match r with
  | AddTextCompletion i s o => add_text_completion_service i s o self
  | AddChat i s o => add_chat_service i s o self
  | AddTextEmbedding i s o => add_text_embedding_generation_service i s o self
  | SetDefaultTextCompletion i => set_default_text_completion_service i self
  | SetDefaultChat i => set_default_chat_service i self
  | SetDefaultTextEmbedding i => set_default_text_embedding_generation_service i self
  | RemoveTextCompletion i => remove_text_completion_service i self
  | RemoveChat i => remove_chat_service i self
  | RemoveTextEmbedding i => remove_text_embedding_generation_service i self
  | ClearTextCompletion => Ret (clear_all_text_completion_services self)
  | ClearChat => Ret (clear_all_chat_services self)
  | ClearTextEmbedding => Ret (clear_all_text_embedding_generation_services self)
  | ClearAll => Ret (clear_all_services self)
  end.

(** A caller's session with a kernel: the requests in order, one that raises
    leaving the registry as it was. *)
Definition perform_all (rs : list request) (self : services) : services :=
  foldl (fun k r => match perform r k with Ret k' => k' | Raise _ => k end) self rs.

(** The default id of a category is [None] or a key of its services. *)
Definition default_registered (d : option string) (m : PyDict.dict string factory)
    : Prop :=
  match d with
  | None => True
  | Some i => i ∈ PyDict.keys m
  end.

Definition defaults_registered (self : services) : Prop :=
  default_registered (_default_text_completion_service self)
    (_text_completion_services self)
  ∧ default_registered (_default_chat_service self) (_chat_services self)
  ∧ default_registered (_default_text_embedding_generation_service self)
      (_text_embedding_generation_services self).

(** *** Resolving a service *)

(** The capability asked of [get_ai_service]: one of the three client base
    classes, or any other type, with its name. *)
Inductive service_type :=
| TextCompletionClientBase
| ChatCompletionClientBase
| EmbeddingGeneratorBase
| OtherType (name : string).

Definition type_name (type : service_type) : string :=
  match type with
  | TextCompletionClientBase => "TextCompletionClientBase"
  | ChatCompletionClientBase => "ChatCompletionClientBase"
  | EmbeddingGeneratorBase => "EmbeddingGeneratorBase"
  | OtherType name => name
  end.

(** [service_id or default]: an id that is [None] or empty gives way to the
    default. *)
Definition or_default (service_id default_id : option string) : option string :=
  if truthy_opt service_id then service_id else default_id.

Definition not_found (type : service_type) (service_id : option string) : exn :=
  Exn ValueError
    (String.append (type_name type)
       (String.append " service with service_id '"
          (String.append (default "None" service_id) "' not found"))).

(** [get_ai_service(type, service_id)]: the factory registered under the id,
    or under the default of the category. *)
Definition get_ai_service (type : service_type) (service_id : option string)
  (self : services) : outcome factory :=
match
  match type with
  | TextCompletionClientBase =>
      Some (or_default service_id (_default_text_completion_service self),
            _text_completion_services self)
  | ChatCompletionClientBase =>
      Some (or_default service_id (_default_chat_service self), _chat_services self)
  | EmbeddingGeneratorBase =>
      Some (or_default service_id (_default_text_embedding_generation_service self),
            _text_embedding_generation_services self)
  | OtherType _ => None
  end
with
| None =>
    Raise (Exn ValueError (String.append "Unknown AI service type: " (type_name type)))
| Some (service_id, matching_type) =>
    match service_id with
    | None => Raise (not_found type None)
    | Some i =>
        match PyDict.getitem i matching_type with
        | Some f => Ret f
        | None => Raise (not_found type service_id)
        end
    end
end.

Definition all_text_completion_services (self : services) : list string :=
  PyDict.keys (_text_completion_services self).

Definition all_chat_services (self : services) : list string :=
  PyDict.keys (_chat_services self).

Definition all_text_embedding_generation_services (self : services) : list string :=
  PyDict.keys (_text_embedding_generation_services self).

(** The body shared by the three [get_*_service_id]: the id when it is
    registered, else the default, else a [ValueError]. *)
Definition service_id_or_default (no_default : string) (service_id : option string)
  (registered : PyDict.dict string factory) (default_id : option string)
  : outcome string :=
match service_id with
| Some i =>
    if PyDict.contains i registered then Ret i
    else match default_id with
         | None => Raise (Exn ValueError no_default)
         | Some d => Ret d
         end
| None =>
    match default_id with
    | None => Raise (Exn ValueError no_default)
    | Some d => Ret d
    end
end.

Definition get_text_completion_service_service_id (service_id : option string)
  (self : services) : outcome string :=
service_id_or_default "No default text service is set" service_id
  (_text_completion_services self) (_default_text_completion_service self).

Definition get_chat_service_service_id (service_id : option string)
  (self : services) : outcome string :=
service_id_or_default "No default chat service is set" service_id
  (_chat_services self) (_default_chat_service self).

Definition get_text_embedding_generation_service_id (service_id : option string)
  (self : services) : outcome string :=
service_id_or_default "No default embedding service is set" service_id
  (_text_embedding_generation_services self)
  (_default_text_embedding_generation_service self).

(** The keys of a [dict] are distinct; of the three dictionaries of the
    registry: *)
Definition distinct_ids (self : services) : Prop :=
  NoDup (PyDict.keys (_text_completion_services self))
  ∧ NoDup (PyDict.keys (_chat_services self))
  ∧ NoDup (PyDict.keys (_text_embedding_generation_services self)).

(** A category has a default exactly when it has a service. *)
Definition default_iff_service (d : option string) (m : PyDict.dict string factory)
  : Prop :=
  d = None ↔ m = [].

Definition defaults_iff_services (self : services) : Prop :=
  default_iff_service (_default_text_completion_service self)
    (_text_completion_services self)
  ∧ default_iff_service (_default_chat_service self) (_chat_services self)
  ∧ default_iff_service (_default_text_embedding_generation_service self)
      (_text_embedding_generation_services self).

(** *** The pipeline *)
Section WithWorld.
Context {World : Type} `{PromptTemplatingEngine World}.

(** Modelled from the spec: a handler is caller code run with the event; it
  may set the flags of the event and may raise.  It is taken not to alter
  the Context the event carries. *)
Definition invoking_handler : Type :=
FunctionInvokingEventArgs.t -> World -> outcome FunctionInvokingEventArgs.t * World.

Definition invoked_handler : Type :=
FunctionInvokedEventArgs.t -> World -> outcome FunctionInvokedEventArgs.t * World.

(** The kernel: the references to its memory and skill collection, the
  service registry, and the handlers by identity, in registration
  order. *)
Record t := Make {
_memory : nat;
_skill_collection : nat;
_services : services;
_function_invoking_handlers : PyDict.dict nat invoking_handler;
_function_invoked_handlers : PyDict.dict nat invoked_handler
}.

Definition add_function_invoking_handler (id : nat) (handler : invoking_handler)
  (self : t) : t :=
{| _memory := _memory self; _skill_collection := _skill_collection self;
   _services := _services self;
   _function_invoking_handlers :=
     PyDict.setitem id handler (_function_invoking_handlers self);
   _function_invoked_handlers := _function_invoked_handlers self |}.

Definition add_function_invoked_handler (id : nat) (handler : invoked_handler)
  (self : t) : t :=
{| _memory := _memory self; _skill_collection := _skill_collection self;
   _services := _services self;
   _function_invoking_handlers := _function_invoking_handlers self;
   _function_invoked_handlers :=
     PyDict.setitem id handler (_function_invoked_handlers self) |}.

(** [if id(handler) in handlers: del handlers[id(handler)]] *)
Definition remove_function_invoking_handler (id : nat) (self : t) : t :=
  {| _memory := _memory self; _skill_collection := _skill_collection self;
     _services := _services self;
     _function_invoking_handlers :=
       if PyDict.contains id (_function_invoking_handlers self)
       then PyDict.delitem id (_function_invoking_handlers self)
       else _function_invoking_handlers self;
     _function_invoked_handlers := _function_invoked_handlers self |}.

Definition remove_function_invoked_handler (id : nat) (self : t) : t :=
  {| _memory := _memory self; _skill_collection := _skill_collection self;
     _services := _services self;
     _function_invoking_handlers := _function_invoking_handlers self;
     _function_invoked_handlers :=
       if PyDict.contains id (_function_invoked_handlers self)
       then PyDict.delitem id (_function_invoked_handlers self)
       else _function_invoked_handlers self |}.

(** [for handler in handlers.values(): handler(self, args)] *)
Fixpoint call_handlers {A : Type} (handlers : list (A -> World -> outcome A * World))
  (args : A) (w : World) : outcome A * World :=
match handlers with
| [] => (Ret args, w)
| handler :: rest =>
    match handler args w with
    | (Ret args', w') => call_handlers rest args' w'
    | (Raise e, w') => (Raise e, w')
    end
end.

(** [on_function_invoking]: [None] when no handler is registered. *)
Definition on_function_invoking (self : t) (function_view : FunctionView)
  (context : SKContext) (w : World)
  : outcome (option FunctionInvokingEventArgs.t) * World :=
match _function_invoking_handlers self with
| [] => (Ret None, w)
| handlers =>
    match call_handlers (PyDict.values handlers)
            (FunctionInvokingEventArgs.Make function_view context false false) w with
    | (Ret args, w') => (Ret (Some args), w')
    | (Raise e, w') => (Raise e, w')
    end
end.

Definition on_function_invoked (self : t) (function_view : FunctionView)
  (context : SKContext) (w : World)
  : outcome (option FunctionInvokedEventArgs.t) * World :=
match _function_invoked_handlers self with
| [] => (Ret None, w)
| handlers =>
    match call_handlers (PyDict.values handlers)
            (FunctionInvokedEventArgs.Make function_view context false false) w with
    | (Ret args, w') => (Ret (Some args), w')
    | (Raise e, w') => (Raise e, w')
    end
end.

(** What a caller may pass where functions are expected ([*functions: Any]). *)
Inductive pyobj :=
| PyNone
| PyStr (s : string)
| PyVariables (v : ContextVariables)
| PyContext (c : SKContext)
| PyFunction (f : SKFunction World)
| PyTuple (items : list pyobj).

(** The Context a run starts from, out of [input_context], [input_vars] and
  [input_str] (the opening lines of [run_async], repeated in
  [run_stream_async] for a single function). *)
Definition seed_context (self : t) (input_context : option SKContext)
  (input_vars : option ContextVariables) (input_str : option string) : SKContext :=
match input_context with
| Some context =>
    let context :=
      match input_vars with
      | Some v =>
          SKContext.set_variables context
            (ContextVariables.merge_or_overwrite v (SKContext.variables context) false)
      | None => context
      end in
    match input_str with
    | Some s =>
        SKContext.set_variables context
          (ContextVariables.merge_or_overwrite
             (ContextVariables.create (Some s)) (SKContext.variables context) false)
    | None => context
    end
| None =>
    let variables :=
      match input_str, input_vars with
      | Some s, None => ContextVariables.create (Some s)
      | None, Some v => v
      | Some s, Some v =>
          ContextVariables.merge_or_overwrite (ContextVariables.create (Some s)) v false
      | None, None => ContextVariables.create None
      end in
    SKContext.create variables (_memory self) (Some (_skill_collection self))
end.

(** [isinstance(func, SKFunctionBase)] *)
Definition is_function (func : pyobj) : bool :=
match func with
| PyFunction _ => true
| _ => false
end.

(** A call of [func.invoke_async] made by the pipeline, with the value of
  [pipeline_step] at the call; a ghost record, kept to count calls. *)
Record invocation := Invoked {
at_step : nat;
callee : FunctionView
}.

(** How one pass through the body of [while True] ends. *)
Inductive pass_end :=
| Return_ (context : SKContext)
| Break_ (context : SKContext)
| Continue_ (context : SKContext)
| Raise_ (e : exn).

Definition assertion_error : exn :=
Exn AssertionError
  "All func arguments to Kernel.run*(inputs, func1, func2, ...) must be SKFunctionBase instances".

(** [isinstance(args, FunctionInvokingEventArgs) and args.is_cancel_requested],
  and the like for the other flags. *)
Definition cancel_requested (args : option FunctionInvokingEventArgs.t) : bool :=
match args with
| Some a => FunctionInvokingEventArgs.is_cancel_requested a
| None => false
end.

Definition skip_requested (args : option FunctionInvokingEventArgs.t) : bool :=
match args with
| Some a => FunctionInvokingEventArgs.is_skip_requested a
| None => false
end.

Definition cancel_requested_after (args : option FunctionInvokedEventArgs.t) : bool :=
match args with
| Some a => FunctionInvokedEventArgs.is_cancel_requested a
| None => false
end.

Definition repeat_requested (args : option FunctionInvokedEventArgs.t) : bool :=
match args with
| Some a => FunctionInvokedEventArgs.is_repeat_requested a
| None => false
end.

(** One pass through the body of [while True] in [run_async], for the
  function [func] at step [pipeline_step].  The keyword arguments passed
  through to the function are taken to be none. *)
Definition loop_body (self : t) (func : pyobj) (pipeline_step : nat)
  (context : SKContext) (st : SKFunction.Store World)
  : pass_end * SKFunction.Store World * list invocation :=
match func with
| PyFunction func =>
    if SKContext.error_occurred context then (Return_ context, st, [])
    else
      (* try *)
      let function_details := SKFunction.describe func in
      match on_function_invoking self function_details context (SKFunction.world st) with
      | (Raise ex, w1) =>
          (Return_ (SKContext.fail context (str ex) ex), SKFunction.set_world st w1, [])
      | (Ret function_invoking_args, w1) =>
          let st1 := SKFunction.set_world st w1 in
          if cancel_requested function_invoking_args
          then (Return_ context, st1, [])
          else if skip_requested function_invoking_args
          then (Break_ context, st1, [])
          else
            let '(context, st2) :=
              SKFunction.invoke_async func None None (Some context) None None st1 in
            let calls := [Invoked pipeline_step function_details] in
            if SKContext.error_occurred context then (Return_ context, st2, calls)
            else
              match on_function_invoked self function_details context
                      (SKFunction.world st2) with
              | (Raise ex, w3) =>
                  (Return_ (SKContext.fail context (str ex) ex),
                   SKFunction.set_world st2 w3, calls)
              | (Ret function_invoked_args, w3) =>
                  let st3 := SKFunction.set_world st2 w3 in
                  if cancel_requested_after function_invoked_args
                  then (Return_ context, st3, calls)
                  else if repeat_requested function_invoked_args
                  then (Continue_ context, st3, calls)
                  else (Break_ context, st3, calls)
              end
      end
| _ => (Raise_ assertion_error, st, [])
end.

(** How [while True] ends, when it does within the iterations given. *)
Inductive loop_end :=
| LoopReturn (context : SKContext)
| LoopBreak (context : SKContext)
| LoopRaise (e : exn)
| LoopOutOfFuel.

(** [while True: ...] for one function, at most [fuel] passes. *)
Fixpoint while_true (fuel : nat) (self : t) (func : pyobj) (pipeline_step : nat)
  (context : SKContext) (st : SKFunction.Store World)
  : loop_end * SKFunction.Store World * list invocation :=
match fuel with
| 0 => (LoopOutOfFuel, st, [])
| S fuel' =>
    match loop_body self func pipeline_step context st with
    | (Return_ c, st', calls) => (LoopReturn c, st', calls)
    | (Break_ c, st', calls) => (LoopBreak c, st', calls)
    | (Raise_ e, st', calls) => (LoopRaise e, st', calls)
    | (Continue_ c, st', calls) =>
        let '(r, st'', calls') := while_true fuel' self func pipeline_step c st' in
        (r, st'', calls ++ calls')
    end
end.

(** How a run ends. *)
Inductive run_end :=
| RunReturn (context : SKContext)
| RunRaise (e : exn)
| RunOutOfFuel.

(** [for func in functions: while True: ...; pipeline_step += 1] and the
  final [return context]. *)
Fixpoint for_functions (fuel : nat) (self : t) (functions : list pyobj)
  (pipeline_step : nat) (context : SKContext) (st : SKFunction.Store World)
  : run_end * SKFunction.Store World * list invocation :=
match functions with
| [] => (RunReturn context, st, [])
| func :: rest =>
    match while_true fuel self func pipeline_step context st with
    | (LoopReturn c, st', calls) => (RunReturn c, st', calls)
    | (LoopRaise e, st', calls) => (RunRaise e, st', calls)
    | (LoopOutOfFuel, st', calls) => (RunOutOfFuel, st', calls)
    | (LoopBreak c, st', calls) =>
        let '(r, st'', calls') :=
          for_functions fuel self rest (S pipeline_step) c st' in
        (r, st'', calls ++ calls')
    end
end.

(** [run_async] over [functions], seeded from [input_context], [input_vars]
  and [input_str]. *)
Definition run_async (fuel : nat) (self : t) (functions : list pyobj)
  (input_context : option SKContext) (input_vars : option ContextVariables)
  (input_str : option string) (st : SKFunction.Store World)
  : run_end * SKFunction.Store World * list invocation :=
for_functions fuel self functions 0
  (seed_context self input_context input_vars input_str) st.

(** *** What handlers answer, for the statements below *)

(** The pre-invocation handlers run without a fault and ask neither to
  cancel nor to skip; [w1] is the world they leave. *)
Definition lets_through (self : t) (function_view : FunctionView)
  (context : SKContext) (w w1 : World) : Prop :=
∃ args, on_function_invoking self function_view context w = (Ret args, w1)
        ∧ cancel_requested args = false ∧ skip_requested args = false.

(** The pre-invocation handlers run without a fault and ask to skip (and
  not to cancel). *)
Definition asks_to_skip (self : t) (function_view : FunctionView)
  (context : SKContext) (w w1 : World) : Prop :=
∃ args, on_function_invoking self function_view context w = (Ret args, w1)
        ∧ cancel_requested args = false ∧ skip_requested args = true.

(** The post-invocation handlers run without a fault, do not ask to cancel,
  and ask to repeat or not as [repeat] tells. *)
Definition answers_repeat (self : t) (function_view : FunctionView)
  (context : SKContext) (w w3 : World) (repeat : bool) : Prop :=
∃ args, on_function_invoked self function_view context w = (Ret args, w3)
        ∧ cancel_requested_after args = false ∧ repeat_requested args = repeat.

(** A pass of the pipeline in which [func] is invoked on [context], succeeds
  with [context'], and the post-invocation handlers answer [repeat]. *)
Definition invoked_pass (self : t) (func : SKFunction World)
  (context : SKContext) (st : SKFunction.Store World) (repeat : bool)
  (context' : SKContext) (st' : SKFunction.Store World) : Prop :=
SKContext.error_occurred context = false
∧ ∃ w1 st2 w3,
    lets_through self (SKFunction.describe func) context (SKFunction.world st) w1
    ∧ SKFunction.invoke_async func None None (Some context) None None
        (SKFunction.set_world st w1) = (context', st2)
    ∧ SKContext.error_occurred context' = false
    ∧ answers_repeat self (SKFunction.describe func) context'
        (SKFunction.world st2) w3 repeat
    ∧ st' = SKFunction.set_world st2 w3.

(** [n] passes in a row, each invoking [func] and answered with repeat. *)
Inductive repeats (self : t) (func : SKFunction World)
  : nat -> SKContext -> SKFunction.Store World
    -> SKContext -> SKFunction.Store World -> Prop :=
| repeats_none c st : repeats self func 0 c st c st
| repeats_more n c st c1 st1 c2 st2 :
  invoked_pass self func c st true c1 st1 ->
  repeats self func n c1 st1 c2 st2 ->
  repeats self func (S n) c st c2 st2.

(** How a stream run to its end has gone: an exception before the streaming
  stage was reached, or the run of the streaming stage. *)
Inductive stream_end :=
| StreamNotStarted (e : exn)
| StreamOutOfFuel
| Streamed (r : stream_run).

Definition of_option {A : Type} (inj : A -> pyobj) (o : option A) : pyobj :=
match o with
| Some a => inj a
| None => PyNone
end.

(** The streaming stage of [run_stream_async]: the [try] around
  [stream_function.invoke_stream_async(input=None, context=context)]. *)
Definition stream_stage (stream_function : pyobj) (context : SKContext)
  (st : SKFunction.Store World) : stream_run * SKFunction.Store World :=
match stream_function with
| PyFunction f =>
    let '(r, st') :=
      SKFunction.invoke_stream_async f None None (Some context) None None st in
    match raised r with
    | None => (r, st')
    | Some _ =>
        ({| yielded := yielded r;
            raised := Some SKFunction.kernel_exception_stream;
            context_after := context_after r |}, st')
    end
| _ =>
    (* no [invoke_stream_async]; the handler then reads [skill_name] *)
    ({| yielded := [];
        raised := Some (Exn AttributeError "object has no attribute 'skill_name'");
        context_after := context |}, st)
end.

(** [run_stream_async] over [functions], consumed to its end.  With more than one function the source calls
  [self.run_async(pipeline_functions, input_context, input_vars, input_str)]:
  four positional arguments, which [run_async] receives as its
  [*functions]. *)
Definition run_stream_async (fuel : nat) (self : t) (functions : list pyobj)
  (input_context : option SKContext) (input_vars : option ContextVariables)
  (input_str : option string) (st : SKFunction.Store World)
  : stream_end * SKFunction.Store World * list invocation :=
match functions with
| [] => (StreamNotStarted (Exn ValueError "No functions passed to run"), st, [])
| [stream_function] =>
    let context := seed_context self input_context input_vars input_str in
    let '(r, st') := stream_stage stream_function context st in
    (Streamed r, st', [])
| _ =>
    let pipeline_functions := removelast functions in
    let stream_function := List.last functions PyNone in
    match run_async fuel self
            [PyTuple pipeline_functions; of_option PyContext input_context;
             of_option PyVariables input_vars; of_option PyStr input_str]
            None None None st with
    | (RunRaise e, st', calls) => (StreamNotStarted e, st', calls)
    | (RunOutOfFuel, st', calls) => (StreamOutOfFuel, st', calls)
    | (RunReturn context, st', calls) =>
        let '(r, st'') := stream_stage stream_function context st' in
        (Streamed r, st'', calls)
    end
end.

End WithWorld.
Arguments t : clear implicits.
Arguments pyobj : clear implicits.
Arguments invoking_handler : clear implicits.
Arguments invoked_handler : clear implicits.
End Kernel.

Abbreviation Kernel := Kernel.t.

(** * Concrete collaborators

    A world that counts the calls of the post-invocation handler, an engine
    for templates without holes, and the kernels, functions, clients and
    templates at which the statements below are evaluated. *)
Module Examples.

(** A template without holes renders to its text. *)
#[global] Instance plain_engine : PromptTemplatingEngine nat :=
  {| render_async := fun tpl _ w => (Ret tpl, w) |}.

Definition st0 : SKFunction.Store nat :=
  {| SKFunction.world := 0; SKFunction.templates := ∅ |}.

Definition ctx0 : SKContext :=
  SKContext.create (ContextVariables.create (Some "hi")) 0 (Some 0).

(** A kernel without handlers. *)
Definition k0 : Kernel nat :=
  {| Kernel._memory := 0; Kernel._skill_collection := 0;
     Kernel._services := Kernel.no_services;
     Kernel._function_invoking_handlers := [];
     Kernel._function_invoked_handlers := [] |}.

Definition boom_fault : exn := Exn Fault "boom".

(** A native procedure that raises. *)
Definition boom : SKFunction nat :=
  SKFunction.from_native_method
    {| SKFunction.call := fun c w => (Raise boom_fault, c, w);
       SKFunction.iterate := fun c w =>
         ({| yielded := []; raised := Some boom_fault; context_after := c |}, w) |}
    "boom" "raises" "tests".

(** A native procedure that copies the input to [question] and returns a
    new input. *)
Definition echo : SKFunction nat :=
  SKFunction.from_native_method
    {| SKFunction.call := fun c w =>
         (Ret (ReturnsStr "What is it?"),
          SKContext.set_variables c
            (ContextVariables.set "question" (SKContext.input c)
               (SKContext.variables c)), w);
       SKFunction.iterate := fun c w =>
         ({| yielded := ["What "; "is it?"]; raised := None; context_after := c |}, w) |}
    "echo" "copies the input" "tests".

(** A client that completes with [abc], streamed as [a], [b], [c]. *)
Definition abc_client : SKFunction.Client nat :=
  {| SKFunction.complete_async := fun _ _ w => (Ret "abc", w);
     SKFunction.complete_stream_async := fun _ _ w => (["a"; "b"; "c"], None, w);
     SKFunction.complete_chat_async := fun _ _ w =>
       (Ret (OneReply (ReplyText (Some "abc"))), w);
     SKFunction.complete_chat_stream_async := fun _ _ w =>
       ([PartialStr "a"; PartialStr "b"; PartialStr "c"], None, w) |}.

(** A client whose completions fail, the streamed ones after a first
    chunk. *)
Definition broken_client : SKFunction.Client nat :=
  {| SKFunction.complete_async := fun _ _ w => (Raise boom_fault, w);
     SKFunction.complete_stream_async := fun _ _ w => (["a"], Some boom_fault, w);
     SKFunction.complete_chat_async := fun _ _ w => (Raise boom_fault, w);
     SKFunction.complete_chat_stream_async := fun _ _ w =>
       ([PartialStr "a"], Some boom_fault, w) |}.

Definition with_client (client : SKFunction.Client nat) (f : SKFunction nat)
    : SKFunction nat :=
  {| SKFunction._name := SKFunction._name f;
     SKFunction._skill_name := SKFunction._skill_name f;
     SKFunction._description := SKFunction._description f;
     SKFunction._function := SKFunction._function f;
     SKFunction._skill_collection := SKFunction._skill_collection f;
     SKFunction._ai_service := Some client;
     SKFunction._ai_request_settings := SKFunction._ai_request_settings f |}.

(** A semantic function over a text template. *)
Definition writer (client : SKFunction.Client nat) : SKFunction nat :=
  with_client client
    (SKFunction.from_semantic_config "tests" "writer" "writes"
       {| SKFunction.prompt_template := SKFunction.TextTemplate "Write." |}).

(** A kernel whose pre-invocation handler asks to skip. *)
Definition k_skip : Kernel nat :=
  Kernel.add_function_invoking_handler 1
    (fun args w =>
       (Ret (FunctionInvokingEventArgs.Make
               (FunctionInvokingEventArgs.function_view args)
               (FunctionInvokingEventArgs.context args)
               (FunctionInvokingEventArgs.is_cancel_requested args) true), w))
    k0.

(** A kernel whose post-invocation handler asks to repeat on its first two
    calls, counted in the world. *)
Definition k_repeat : Kernel nat :=
  Kernel.add_function_invoked_handler 1
    (fun args w =>
       (Ret (FunctionInvokedEventArgs.Make
               (FunctionInvokedEventArgs.function_view args)
               (FunctionInvokedEventArgs.context args)
               (FunctionInvokedEventArgs.is_cancel_requested args)
               (Nat.ltb w 2)), S w))
    k0.

Definition no_config : PromptTemplateConfig :=
  {| extension_data := ∅; chat_system_prompt := None; completion_messages := [] |}.

Definition empty_chat : ChatPromptTemplate :=
  ChatPromptTemplate.Make "Template" no_config [].

(** A chat template holding [system:S, user:U]. *)
Definition chat_su : ChatPromptTemplate :=
  ChatPromptTemplate.add_user_message
    (ChatPromptTemplate.add_system_message empty_chat "S") "U".

(** A chat template whose last message is a tool message. *)
Definition chat_tool_last : ChatPromptTemplate :=
  ChatPromptTemplate.add_message chat_su "tool" (Some "T").

(** A registry with the text completion services [a] and [b], [a] the
    default. *)
Definition registry_ab : Kernel.services :=
  Kernel.perform_all
    [Kernel.AddTextCompletion "a" (Callable 1) true;
     Kernel.AddTextCompletion "b" (Callable 2) true]
    Kernel.no_services.

(** A chat client that is a text completion client as well. *)
Definition chat_and_text : client_object :=
  {| client_id := 7; is_text_completion_client := true |}.

(** A kernel whose post-invocation handler always asks to repeat. *)
Definition k_always : Kernel nat :=
  Kernel.add_function_invoked_handler 1
    (fun args w =>
       (Ret (FunctionInvokedEventArgs.Make
               (FunctionInvokedEventArgs.function_view args)
               (FunctionInvokedEventArgs.context args)
               (FunctionInvokedEventArgs.is_cancel_requested args) true), w))
    k0.

(** A kernel whose pre-invocation handler asks to cancel and to skip. *)
Definition k_cancel : Kernel nat :=
  Kernel.add_function_invoking_handler 1
    (fun args w =>
       (Ret (FunctionInvokingEventArgs.Make
               (FunctionInvokingEventArgs.function_view args)
               (FunctionInvokingEventArgs.context args) true true), S w))
    k0.

(** A kernel whose post-invocation handler asks to cancel and to repeat. *)
Definition k_cancel_after : Kernel nat :=
  Kernel.add_function_invoked_handler 1
    (fun args w =>
       (Ret (FunctionInvokedEventArgs.Make
               (FunctionInvokedEventArgs.function_view args)
               (FunctionInvokedEventArgs.context args) true true), S w))
    k0.

(** A kernel whose pre-invocation handler raises. *)
Definition k_faulty : Kernel nat :=
  Kernel.add_function_invoking_handler 1 (fun _ w => (Raise boom_fault, S w)) k0.

(** A semantic function over a text template, not bound to a client yet. *)
Definition unbound_writer : SKFunction nat :=
  SKFunction.from_semantic_config "tests" "writer" "writes"
    {| SKFunction.prompt_template := SKFunction.TextTemplate "Write." |}.

(** A chat client that answers with a completion, a tool message and a
    function call; its list of completions is empty when asked with
    settings that name [n]. *)
Definition tool_client : SKFunction.Client nat :=
  {| SKFunction.complete_async := fun _ _ w => (Ret "abc", w);
     SKFunction.complete_stream_async := fun _ _ w => (["abc"], None, w);
     SKFunction.complete_chat_async := fun _ settings w =>
       (Ret (if decide (is_Some (settings !! "n"))
             then ReplyList []
             else OneReply (ReplyTuple (Some "abc") (Some "T") (Some "call"))), w);
     SKFunction.complete_chat_stream_async := fun _ _ w => ([PartialStr "abc"], None, w) |}.

(** A semantic function over the chat template at location 0. *)
Definition chatter (settings : AIRequestSettings) : SKFunction nat :=
  {| SKFunction._name := "chatter"; SKFunction._skill_name := "tests";
     SKFunction._description := "chats";
     SKFunction._function :=
       SKFunction.Semantic {| SKFunction.prompt_template := SKFunction.ChatTemplate 0 |};
     SKFunction._skill_collection := None;
     SKFunction._ai_service := Some tool_client;
     SKFunction._ai_request_settings := settings |}.

(** A store in which location 0 holds the template [chat_su]. *)
Definition st_chat : SKFunction.Store nat :=
  {| SKFunction.world := 0; SKFunction.templates := {[ 0 := chat_su ]} |}.

End Examples.

(** An engine that fails on every template, over a world without state. *)
#[global] Instance failing_engine : PromptTemplatingEngine unit :=
  {| render_async := fun _ _ w => (Raise (Exn Fault "no such variable"), w) |}.

Module FailingExamples.

Definition client : SKFunction.Client unit :=
  {| SKFunction.complete_async := fun _ _ w => (Ret "abc", w);
     SKFunction.complete_stream_async := fun _ _ w => (["abc"], None, w);
     SKFunction.complete_chat_async := fun _ _ w =>
       (Ret (OneReply (ReplyText (Some "abc"))), w);
     SKFunction.complete_chat_stream_async := fun _ _ w => ([PartialStr "abc"], None, w) |}.

Definition chatter : SKFunction unit :=
  {| SKFunction._name := "chatter"; SKFunction._skill_name := "tests";
     SKFunction._description := "chats";
     SKFunction._function :=
       SKFunction.Semantic {| SKFunction.prompt_template := SKFunction.ChatTemplate 0 |};
     SKFunction._skill_collection := None;
     SKFunction._ai_service := Some client;
     SKFunction._ai_request_settings := ∅ |}.

Definition st_chat : SKFunction.Store unit :=
  {| SKFunction.world := tt; SKFunction.templates := {[ 0 := Examples.chat_su ]} |}.

End FailingExamples.

(** * Properties *)

(** ** Dictionaries *)
Section DictFacts.
Context {K V : Type} `{EqDecision K}.
Implicit Types (d : PyDict.dict K V) (k i : K) (v : V).

Lemma contains_true k d : PyDict.contains k d = true ↔ k ∈ PyDict.keys d.
Proof. unfold PyDict.contains. by rewrite bool_decide_eq_true. Qed.

Lemma keys_setitem_same k v d : k ∈ PyDict.keys (PyDict.setitem k v d).
Proof.
  induction d as [|[k' v'] d IH]; simpl.
  - apply list_elem_of_here.
  - destruct (decide (k = k')); simpl.
    + apply list_elem_of_here.
    + by apply list_elem_of_further.
Qed.

Lemma keys_setitem_old i k v d :
  i ∈ PyDict.keys d → i ∈ PyDict.keys (PyDict.setitem k v d).
Proof.
  induction d as [|[k' v'] d IH]; simpl; intros Hi.
  - by apply elem_of_nil in Hi.
  - apply elem_of_cons in Hi. destruct (decide (k = k')) as [->|]; simpl.
    + apply elem_of_cons. destruct Hi; auto.
    + apply elem_of_cons. destruct Hi; auto.
Qed.

Lemma keys_delitem_other i k d :
  i ≠ k → i ∈ PyDict.keys d → i ∈ PyDict.keys (PyDict.delitem k d).
Proof.
  intros Hne. induction d as [|[k' v'] d IH]; simpl; intros Hi; [done|].
  apply elem_of_cons in Hi. destruct (decide (k = k')) as [->|]; simpl.
  - destruct Hi; [congruence | done].
  - apply elem_of_cons. destruct Hi; auto.
Qed.

Lemma first_key_registered i d : PyDict.first_key d = Some i → i ∈ PyDict.keys d.
Proof.
  unfold PyDict.first_key. destruct (PyDict.keys d) as [|k ks]; simpl; [done|].
  intros [= ->]. apply list_elem_of_here.
Qed.

Lemma first_key_none d : PyDict.first_key d = None ↔ d = [].
Proof. unfold PyDict.first_key, PyDict.keys. by destruct d. Qed.
End DictFacts.

(** ** The AI service registry *)
Section Registry.
Import Kernel.

Lemma default_registered_add i s d m :
  truthy i = true →
  default_registered d m →
  default_registered (match d with None => Some i | Some x => Some x end)
    (PyDict.setitem i s m).
Proof.
  intros _ Hd. destruct d as [x|]; simpl in *.
  - by apply keys_setitem_old.
  - apply keys_setitem_same.
Qed.

Lemma default_registered_removal i d m :
  default_registered d m →
  default_registered (default_after_removal i (PyDict.delitem i m) d)
    (PyDict.delitem i m).
Proof.
  intros Hd. unfold default_after_removal. case_bool_decide as Heq.
  - destruct (PyDict.first_key (PyDict.delitem i m)) as [j|] eqn:Hj; simpl; [|done].
    by apply first_key_registered.
  - destruct d as [x|]; simpl in *; [|done].
    apply keys_delitem_other; [congruence | done].
Qed.

Lemma add_text_completion_service_registered i s o k k' :
  defaults_registered k →
  add_text_completion_service i s o k = Ret k' → defaults_registered k'.
Proof.
  intros (Ht & Hc & He). unfold add_text_completion_service.
  destruct (truthy i) eqn:Hi; simpl; [|done].
  destruct (negb o && _); [done|]. intros [= <-].
  repeat split; simpl; auto using default_registered_add.
Qed.

Lemma perform_registered r k k' :
  defaults_registered k → perform r k = Ret k' → defaults_registered k'.
Proof.
  intros Hk. pose proof Hk as (Ht & Hc & He).
  destruct r as [i s o|i s o|i s o|i|i|i|i|i|i| | | |]; simpl.
  - by apply add_text_completion_service_registered.
  - unfold add_chat_service. destruct (truthy i) eqn:Hi; simpl; [|done].
    destruct (negb o && _); [done|].
    set (k1 := Build_services _ _ _ _ _ _).
    assert (defaults_registered k1) as Hk1
      by (repeat split; simpl; auto using default_registered_add).
    destruct s as [c|f]; [destruct (is_text_completion_client c)|].
    + by apply add_text_completion_service_registered.
    + by intros [= <-].
    + by intros [= <-].
  - unfold add_text_embedding_generation_service.
    destruct (truthy i) eqn:Hi; simpl; [|done].
    destruct (negb o && _); [done|]. intros [= <-].
    repeat split; simpl; auto using default_registered_add.
  - unfold set_default_text_completion_service.
    destruct (PyDict.contains i _) eqn:Hin; simpl; [|done]. intros [= <-].
    repeat split; simpl; auto. by apply contains_true.
  - unfold set_default_chat_service.
    destruct (PyDict.contains i _) eqn:Hin; simpl; [|done]. intros [= <-].
    repeat split; simpl; auto. by apply contains_true.
  - unfold set_default_text_embedding_generation_service.
    destruct (PyDict.contains i _) eqn:Hin; simpl; [|done]. intros [= <-].
    repeat split; simpl; auto. by apply contains_true.
  - unfold remove_text_completion_service.
    destruct (PyDict.contains i _) eqn:Hin; simpl; [|done]. intros [= <-].
    repeat split; simpl; auto using default_registered_removal.
  - unfold remove_chat_service.
    destruct (PyDict.contains i _) eqn:Hin; simpl; [|done]. intros [= <-].
    repeat split; simpl; auto using default_registered_removal.
  - unfold remove_text_embedding_generation_service.
    destruct (PyDict.contains i _) eqn:Hin; simpl; [|done]. intros [= <-].
    repeat split; simpl; auto using default_registered_removal.
  - intros [= <-]. repeat split; simpl; auto.
  - intros [= <-]. repeat split; simpl; auto.
  - intros [= <-]. repeat split; simpl; auto.
  - intros [= <-]. repeat split; simpl; auto.
Qed.

(** Every registry a caller can reach from a new kernel has its defaults
    registered. *)
Lemma reachable_defaults_registered rs :
  defaults_registered (perform_all rs no_services).
Proof.
  unfold perform_all.
  assert (defaults_registered no_services) as H0 by (repeat split; simpl; auto).
  revert H0. generalize no_services. induction rs as [|r rs IH]; intros k Hk; [done|].
  simpl. apply IH. destruct (perform r k) as [k'|e] eqn:Hr; [|done].
  by eapply perform_registered.
Qed.
End Registry.

(** ** The pipeline *)
Section Pipeline.
Context {World : Type} `{PromptTemplatingEngine World}.
Import Kernel.
Implicit Types (k : Kernel World) (f : SKFunction World)
  (st : SKFunction.Store World) (ctx : SKContext).

Lemma prepare_context_given f ctx :
  SKFunction.prepare_context f None None (Some ctx) None = ctx.
Proof. reflexivity. Qed.

(** A fault of the invocation is recorded on the Context. *)
Lemma invoke_async_raised f ctx st e c st' :
  SKFunction.try_body f ctx None st = (Raised e c, st') →
  SKFunction.invoke_async f None None (Some ctx) None None st
    = (SKContext.fail c (str e) e, st').
Proof.
  intros Hr. unfold SKFunction.invoke_async.
  rewrite prepare_context_given, Hr. reflexivity.
Qed.

(** One pass for a function whose invocation leaves the error flag set. *)
Lemma loop_body_failed k f step ctx st w1 ctx' st' :
  SKContext.error_occurred ctx = false →
  lets_through k (SKFunction.describe f) ctx (SKFunction.world st) w1 →
  SKFunction.invoke_async f None None (Some ctx) None None (SKFunction.set_world st w1)
    = (ctx', st') →
  SKContext.error_occurred ctx' = true →
  loop_body k (PyFunction f) step ctx st
    = (Return_ ctx', st', [Invoked step (SKFunction.describe f)]).
Proof.
  intros Hok (args & Hpre & Hc & Hs) Hcall Herr.
  unfold loop_body. rewrite Hok, Hpre, Hc, Hs, Hcall, Herr. reflexivity.
Qed.

(** One pass in which the function is invoked and succeeds. *)
Lemma loop_body_invoked k f step ctx st b ctx' st' :
  invoked_pass k f ctx st b ctx' st' →
  loop_body k (PyFunction f) step ctx st
    = (if b then Continue_ ctx' else Break_ ctx', st',
       [Invoked step (SKFunction.describe f)]).
Proof.
  intros (Hok & w1 & st2 & w3 & (args & Hpre & Hc & Hs) & Hcall & Hok'
          & (args' & Hpost & Hc' & Hr) & ->).
  unfold loop_body. rewrite Hok, Hpre, Hc, Hs, Hcall, Hok', Hpost, Hc', Hr.
  by destruct b.
Qed.

(** One pass for a function the handlers ask to skip. *)
Lemma loop_body_skipped k f step ctx st w1 :
  SKContext.error_occurred ctx = false →
  asks_to_skip k (SKFunction.describe f) ctx (SKFunction.world st) w1 →
  loop_body k (PyFunction f) step ctx st = (Break_ ctx, SKFunction.set_world st w1, []).
Proof.
  intros Hok (args & Hpre & Hc & Hs).
  unfold loop_body. rewrite Hok, Hpre, Hc, Hs. reflexivity.
Qed.

Lemma while_true_unfold fuel k (o : pyobj World) step ctx st :
  while_true (S fuel) k o step ctx st =
    match loop_body k o step ctx st with
    | (Return_ c, st', calls) => (LoopReturn c, st', calls)
    | (Break_ c, st', calls) => (LoopBreak c, st', calls)
    | (Raise_ e, st', calls) => (LoopRaise e, st', calls)
    | (Continue_ c, st', calls) =>
        let '(r, st'', calls') := while_true fuel k o step c st' in
        (r, st'', calls ++ calls')
    end.
Proof. reflexivity. Qed.

Lemma for_functions_unfold fuel k (o : pyobj World) rest step ctx st :
  for_functions fuel k (o :: rest) step ctx st =
    match while_true fuel k o step ctx st with
    | (LoopReturn c, st', calls) => (RunReturn c, st', calls)
    | (LoopRaise e, st', calls) => (RunRaise e, st', calls)
    | (LoopOutOfFuel, st', calls) => (RunOutOfFuel, st', calls)
    | (LoopBreak c, st', calls) =>
        let '(r, st'', calls') := for_functions fuel k rest (S step) c st' in
        (r, st'', calls ++ calls')
    end.
Proof. reflexivity. Qed.

(** [n] repeats and a last pass that falls through: [n + 1] invocations. *)
Lemma while_true_repeats k f step n : ∀ fuel ctx st cn sn c' s',
  repeats k f n ctx st cn sn →
  invoked_pass k f cn sn false c' s' →
  n < fuel →
  while_true fuel k (PyFunction f) step ctx st
    = (LoopBreak c', s', replicate (S n) (Invoked step (SKFunction.describe f))).
Proof.
  induction n as [|n IH]; intros fuel ctx st cn sn c' s' Hrep Hlast Hfuel.
  - inversion Hrep; subst. destruct fuel as [|fuel]; [lia|].
    rewrite while_true_unfold.
    by rewrite (loop_body_invoked _ _ step _ _ _ _ _ Hlast).
  - inversion Hrep as [|? ? ? c1 s1 ? ? Hpass Hrest]; subst.
    destruct fuel as [|fuel]; [lia|].
    rewrite while_true_unfold.
    rewrite (loop_body_invoked _ _ step _ _ _ _ _ Hpass).
    rewrite (IH fuel c1 s1 cn sn c' s' Hrest Hlast) by lia.
    reflexivity.
Qed.

(** No pass over a function raises. *)
Lemma loop_body_function_no_raise k f step ctx st e st' calls :
  loop_body k (PyFunction f) step ctx st ≠ (Raise_ e, st', calls).
Proof.
  unfold loop_body. repeat (case_match; try done).
Qed.

Lemma while_true_function_no_raise k f step fuel : ∀ ctx st e st' calls,
  while_true fuel k (PyFunction f) step ctx st ≠ (LoopRaise e, st', calls).
Proof.
  induction fuel as [|fuel IH]; intros ctx st e st' calls; [done|].
  rewrite while_true_unfold.
  destruct (loop_body k (PyFunction f) step ctx st) as [[r s] cs] eqn:Hb.
  destruct r as [c|c|c|e'].
  - done.
  - done.
  - destruct (while_true fuel k (PyFunction f) step c s) as [[r' s''] cs'] eqn:Hw.
    intros [= -> -> <-]. by eapply IH.
  - by apply loop_body_function_no_raise in Hb.
Qed.

Lemma for_functions_no_raise k fuel (fs : list (pyobj World)) :
  Forall (λ o, is_function o = true) fs →
  ∀ step ctx st e, (for_functions fuel k fs step ctx st).1.1 ≠ RunRaise e.
Proof.
  induction 1 as [|o fs Ho Hfs IH]; intros step ctx st e; [done|].
  destruct o as [| | | |f|]; try done.
  rewrite for_functions_unfold.
  destruct (while_true fuel k (PyFunction f) step ctx st) as [[r s] cs] eqn:Hw.
  destruct r as [c|c|e'|]; simpl; try done.
  - specialize (IH (S step) c s e).
    destruct (for_functions fuel k fs (S step) c s) as [[r' s'] cs']. done.
  - by apply while_true_function_no_raise in Hw.
Qed.

(** A pass over anything but a function fails the assertion, at once. *)
Lemma for_functions_not_a_function k fuel (o : pyobj World) rest step ctx st :
  is_function o = false →
  for_functions (S fuel) k (o :: rest) step ctx st = (RunRaise assertion_error, st, []).
Proof. by destruct o. Qed.

(** With more than one function, [run_stream_async] hands [run_async] a
    tuple as its first function. *)
Lemma run_stream_async_several fuel k (o1 o2 : pyobj World) os ic iv istr st :
  run_stream_async (S fuel) k (o1 :: o2 :: os) ic iv istr st
    = (StreamNotStarted assertion_error, st, []).
Proof. reflexivity. Qed.
End Pipeline.

(** ** Strings *)
Lemma append_assoc (s1 s2 s3 : string) :
  String.append (String.append s1 s2) s3 = String.append s1 (String.append s2 s3).
Proof.
  induction s1 as [|a s1 IH]; [reflexivity|].
  change (String a (String.append (String.append s1 s2) s3)
          = String a (String.append s1 (String.append s2 s3))).
  by rewrite IH.
Qed.

Lemma append_empty_r (s : string) : String.append s "" = s.
Proof.
  induction s as [|a s IH]; [reflexivity|].
  change (String a (String.append s "") = String a s). by rewrite IH.
Qed.

(** [completion += chunk] over the chunks gives the completion so far followed
    by the chunks joined in order. *)
Lemma accumulate_join (chunks : list string) : ∀ completion,
  SKFunction.accumulate completion chunks
    = String.append completion (String.concat "" chunks).
Proof.
  unfold SKFunction.accumulate.
  induction chunks as [|x xs IH]; intros completion.
  - simpl. by rewrite append_empty_r.
  - simpl foldl. rewrite IH, append_assoc. f_equal.
    destruct xs as [|y ys]; [by rewrite append_empty_r | reflexivity].
Qed.

Lemma accumulate_from_empty (chunks : list string) :
  SKFunction.accumulate "" chunks = String.concat "" chunks.
Proof. by rewrite accumulate_join. Qed.

(** ** Invocation and streaming *)
Section Invocation.
Context {World : Type} `{PromptTemplatingEngine World}.
Import SKFunction.
Implicit Types (f : SKFunction World) (st : Store World) (ctx : SKContext).

Lemma merge_with_itself (v : ContextVariables) :
  ContextVariables.merge_or_overwrite v v false = v.
Proof.
  destruct v as [i m]. unfold ContextVariables.merge_or_overwrite. simpl.
  f_equal. apply (idemp_L (∪)).
Qed.

Lemma set_variables_same ctx :
  SKContext.set_variables ctx
    (ContextVariables.merge_or_overwrite (SKContext.variables ctx)
       (SKContext.variables ctx) false) = ctx.
Proof. rewrite merge_with_itself. by destruct ctx. Qed.

(** A data-level fault is recorded on the Context that [invoke_async]
    returns. *)
Lemma data_fault_recorded f ctx st e :
  data_fault f ctx st e →
  ∃ c st', invoke_async f None None (Some ctx) None None st = (c, st')
           ∧ SKContext.error_occurred c = true
           ∧ SKContext.last_error_description c = str e
           ∧ SKContext.last_exception c = Some e.
Proof.
  intros [m c w' Hf Hcall | cfg tpl client prompt w1 w2 Hf Ht Hc Hr Hcompl
          | cfg loc client messages chat1 w1 w2 Hf Ht Hc Hr Hcompl];
    unfold invoke_async, try_body, is_semantic; rewrite Hf; simpl.
  - unfold _invoke_native_async, delegate. rewrite Hf, Hcall. simpl. by do 2 eexists.
  - unfold _invoke_semantic_async, _local_func.
    rewrite Hf, Hc, Ht, Hr. simpl. rewrite Hcompl. simpl. by do 2 eexists.
  - unfold _invoke_semantic_async, _local_func.
    rewrite Hf, Hc, Ht, Hr. simpl. rewrite Hcompl. simpl. by do 2 eexists.
Qed.
End Invocation.

(** * Main results *)
Section Claims.
Context {World : Type} `{PromptTemplatingEngine World}.
Import Kernel.
Implicit Types (k : Kernel World) (f A B : SKFunction World)
  (st : SKFunction.Store World) (ctx : SKContext).

(** C1.  In a run over the functions [A; B] from a Context [ctx] that has
    not failed, if [A] is invoked (the pre-invocation handlers let it
    through) and its invocation leaves the error flag set, the run returns
    the Context [A] left, at once: the only invocation made is that of [A],
    at step 0, so [B] is never invoked.  The error description returned is
    the one [A] left; when the invocation of [A] raised [e] it is
    [str e]. *)
Theorem failed_function_stops_pipeline fuel k A B ctx st w1 ctx' st' :
  SKContext.error_occurred ctx = false →
  lets_through k (SKFunction.describe A) ctx (SKFunction.world st) w1 →
  SKFunction.invoke_async A None None (Some ctx) None None (SKFunction.set_world st w1)
    = (ctx', st') →
  SKContext.error_occurred ctx' = true →
  run_async (S fuel) k [PyFunction A; PyFunction B] (Some ctx) None None st
    = (RunReturn ctx', st', [Invoked 0 (SKFunction.describe A)])
  ∧ ∀ e c st2,
      SKFunction.try_body A ctx None (SKFunction.set_world st w1) = (Raised e c, st2) →
      SKContext.last_error_description ctx' = str e.
Proof.
  intros Hok Hpre Hcall Herr. split.
  - unfold run_async. simpl seed_context.
    rewrite for_functions_unfold, while_true_unfold.
    by rewrite (loop_body_failed k A 0 ctx st w1 ctx' st' Hok Hpre Hcall Herr).
  - intros e c st2 Hraise.
    rewrite (invoke_async_raised _ _ _ _ _ _ Hraise) in Hcall.
    by injection Hcall as <- _.
Qed.
End Claims.

Lemma failed_function_stops_pipeline_witness :
  SKContext.error_occurred Examples.ctx0 = false
  ∧ Kernel.run_async 1 Examples.k0
      [Kernel.PyFunction Examples.boom; Kernel.PyFunction Examples.echo]
      (Some Examples.ctx0) None None Examples.st0
    = (Kernel.RunReturn (SKContext.fail Examples.ctx0 "boom" Examples.boom_fault),
       Examples.st0,
       [Kernel.Invoked 0 (SKFunction.describe Examples.boom)]).
Proof.
  split; [reflexivity|].
  refine (proj1 (failed_function_stops_pipeline 0 Examples.k0 Examples.boom
                   Examples.echo Examples.ctx0 Examples.st0 0 _ _ _ _ _ _)).
  - reflexivity.
  - exists None. repeat split.
  - reflexivity.
  - reflexivity.
Defined.

Section MoreClaims.
Context {World : Type} `{PromptTemplatingEngine World}.
Import Kernel.
Implicit Types (k : Kernel World) (f A B : SKFunction World)
  (st : SKFunction.Store World) (ctx : SKContext).

(** C2.  A data-level fault [e] in the invocation of a function (raised inside
    the native procedure, or by the AI client during a semantic call) does not
    escape: [invoke_async] returns a Context with the error flag set, the
    description [str e] and the exception [e]; a run that reaches the function
    returns that Context.  No run over functions raises, whatever they do;
    what raises is an element of the list that is not a function
    ([AssertionError]). *)
Theorem data_faults_do_not_escape_run :
  (∀ f ctx st e,
     SKFunction.data_fault f ctx st e →
     ∃ c st', SKFunction.invoke_async f None None (Some ctx) None None st = (c, st')
              ∧ SKContext.error_occurred c = true
              ∧ SKContext.last_error_description c = str e
              ∧ SKContext.last_exception c = Some e)
  ∧ (∀ fuel k f (rest : list (pyobj World)) ctx st w1 e,
       SKContext.error_occurred ctx = false →
       lets_through k (SKFunction.describe f) ctx (SKFunction.world st) w1 →
       SKFunction.data_fault f ctx (SKFunction.set_world st w1) e →
       ∃ c st', run_async (S fuel) k (PyFunction f :: rest) (Some ctx) None None st
                  = (RunReturn c, st', [Invoked 0 (SKFunction.describe f)])
                ∧ SKContext.error_occurred c = true
                ∧ SKContext.last_error_description c = str e)
  ∧ (∀ fuel k (fs : list (pyobj World)) ic iv istr st e,
       Forall (λ o, is_function o = true) fs →
       (run_async fuel k fs ic iv istr st).1.1 ≠ RunRaise e)
  ∧ (∀ fuel k (o : pyobj World) rest ic iv istr st,
       is_function o = false →
       run_async (S fuel) k (o :: rest) ic iv istr st
         = (RunRaise assertion_error, st, [])).
Proof.
  split; [|split; [|split]].
  - intros f ctx st e. apply data_fault_recorded.
  - intros fuel k f rest ctx st w1 e Hok Hpre Hfault.
    destruct (data_fault_recorded _ _ _ _ Hfault) as (c & st' & Hcall & Herr & Hdesc & _).
    exists c, st'. split; [|done].
    unfold run_async. simpl seed_context.
    rewrite for_functions_unfold, while_true_unfold.
    by rewrite (loop_body_failed k f 0 ctx st w1 c st' Hok Hpre Hcall Herr).
  - intros fuel k fs ic iv istr st e Hfs. unfold run_async.
    by apply for_functions_no_raise.
  - intros fuel k o rest ic iv istr st Ho. unfold run_async.
    by apply for_functions_not_a_function.
Qed.

(** C5.  When the post-invocation handlers ask to repeat on [n] invocations of
    [f] in a row and then let the pipeline go on, [f] is invoked exactly
    [n + 1] times, each time at the same value [step] of the step counter, and
    the pipeline goes on with the next function at [step + 1].  This holds for
    every [n] (the loop only needs that many iterations): the kernel has no
    bound of its own on repeats. *)
Theorem repeat_reinvokes_same_function n fuel k f (rest : list (pyobj World))
    step ctx st cn sn c' s' :
  repeats k f n ctx st cn sn →
  invoked_pass k f cn sn false c' s' →
  n < fuel →
  while_true fuel k (PyFunction f) step ctx st
    = (LoopBreak c', s', replicate (S n) (Invoked step (SKFunction.describe f)))
  ∧ for_functions fuel k (PyFunction f :: rest) step ctx st
    = (let '(r, s'', calls) := for_functions fuel k rest (S step) c' s' in
       (r, s'', replicate (S n) (Invoked step (SKFunction.describe f)) ++ calls)).
Proof.
  intros Hrep Hlast Hfuel.
  pose proof (while_true_repeats k f step n fuel ctx st cn sn c' s' Hrep Hlast Hfuel) as Hw.
  split; [done|]. by rewrite for_functions_unfold, Hw.
Qed.

(** C6.  When the pre-invocation handlers ask to skip a function (and not to
    cancel), the pass ends without an invocation and with the Context as it
    was, so with its input slot unchanged, and the run goes on with the next
    function from that same Context at the next step. *)
Theorem skip_advances_without_invoking fuel k f (rest : list (pyobj World))
    step ctx st w1 :
  SKContext.error_occurred ctx = false →
  asks_to_skip k (SKFunction.describe f) ctx (SKFunction.world st) w1 →
  loop_body k (PyFunction f) step ctx st = (Break_ ctx, SKFunction.set_world st w1, [])
  ∧ for_functions (S fuel) k (PyFunction f :: rest) step ctx st
    = for_functions (S fuel) k rest (S step) ctx (SKFunction.set_world st w1).
Proof.
  intros Hok Hskip.
  pose proof (loop_body_skipped k f step ctx st w1 Hok Hskip) as Hb.
  split; [done|].
  rewrite for_functions_unfold, while_true_unfold, Hb.
  by destruct (for_functions (S fuel) k rest (S step) ctx (SKFunction.set_world st w1))
    as [[r s] calls].
Qed.

(** A handler that asks to repeat for ever keeps the loop going: whatever the
    number of iterations allowed, the loop has not ended. *)
Lemma while_true_without_end (P : SKContext → SKFunction.Store World → Prop) k f step :
  (∀ ctx st, P ctx st → ∃ c' s', invoked_pass k f ctx st true c' s' ∧ P c' s') →
  ∀ fuel ctx st, P ctx st →
    (while_true fuel k (PyFunction f) step ctx st).1.1 = LoopOutOfFuel.
Proof.
  intros Hstep. induction fuel as [|fuel IH]; intros ctx st HP; [done|].
  destruct (Hstep ctx st HP) as (c' & s' & Hpass & HP').
  rewrite while_true_unfold, (loop_body_invoked _ _ step _ _ _ _ _ Hpass).
  specialize (IH c' s' HP').
  by destruct (while_true fuel k (PyFunction f) step c' s') as [[r s''] calls].
Qed.
End MoreClaims.

Lemma data_faults_do_not_escape_run_witness :
  ∃ c st', Kernel.run_async 1 Examples.k0
             [Kernel.PyFunction (Examples.writer Examples.broken_client);
              Kernel.PyFunction Examples.echo]
             (Some Examples.ctx0) None None Examples.st0
           = (Kernel.RunReturn c, st',
              [Kernel.Invoked 0 (SKFunction.describe (Examples.writer Examples.broken_client))])
         ∧ SKContext.error_occurred c = true
         ∧ SKContext.last_error_description c = "boom".
Proof.
  refine (proj1 (proj2 data_faults_do_not_escape_run) 0 Examples.k0
            (Examples.writer Examples.broken_client) _ Examples.ctx0 Examples.st0 0
            Examples.boom_fault _ _ _).
  - reflexivity.
  - exists None. repeat split.
  - eapply SKFunction.fault_in_completion; reflexivity.
Defined.

(** A pass at concrete collaborators: every component is computed. *)
Ltac compute_pass :=
  split; [reflexivity|];
  do 3 eexists;
  split; [eexists; split; [reflexivity | split; reflexivity]|];
  split; [reflexivity|];
  split; [reflexivity|];
  split; [eexists; split; [reflexivity | split; reflexivity] | reflexivity].

Lemma repeat_reinvokes_same_function_witness :
  ∃ c' s',
    Kernel.while_true 3 Examples.k_repeat (Kernel.PyFunction Examples.echo) 0
      Examples.ctx0 Examples.st0
    = (Kernel.LoopBreak c', s',
       replicate 3 (Kernel.Invoked 0 (SKFunction.describe Examples.echo))).
Proof.
  do 2 eexists.
  refine (proj1 (repeat_reinvokes_same_function 2 3 Examples.k_repeat Examples.echo []
                   0 Examples.ctx0 Examples.st0 _ _ _ _ _ _ _)).
  - eapply Kernel.repeats_more; [compute_pass|].
    eapply Kernel.repeats_more; [compute_pass|].
    apply Kernel.repeats_none.
  - compute_pass.
  - lia.
Defined.

Lemma skip_advances_without_invoking_witness :
  Kernel.loop_body Examples.k_skip (Kernel.PyFunction Examples.echo) 0
    Examples.ctx0 Examples.st0
  = (Kernel.Break_ Examples.ctx0, Examples.st0, []).
Proof.
  refine (proj1 (skip_advances_without_invoking 0 Examples.k_skip Examples.echo []
                   0 Examples.ctx0 Examples.st0 0 _ _)).
  - reflexivity.
  - eexists. split; [reflexivity | split; reflexivity].
Defined.

(** C3 (what the code does).  A stream over the two functions [echo] and
    [writer] with the input [hi] raises the [AssertionError] of [run_async]
    before anything is invoked: [echo] is not run, no Context is fed to
    [writer], nothing streams.  The same [echo] run by [run_async] on the
    same input is invoked and writes its result. *)
Theorem run_stream_async_skips_pipeline :
  Kernel.run_stream_async 1 Examples.k0
    [Kernel.PyFunction Examples.echo;
     Kernel.PyFunction (Examples.writer Examples.abc_client)]
    None None (Some "hi") Examples.st0
  = (Kernel.StreamNotStarted Kernel.assertion_error, Examples.st0, [])
  ∧ ∃ c,
      Kernel.run_async 1 Examples.k0 [Kernel.PyFunction Examples.echo]
        None None (Some "hi") Examples.st0
      = (Kernel.RunReturn c, Examples.st0,
         [Kernel.Invoked 0 (SKFunction.describe Examples.echo)])
      ∧ SKContext.input c = "What is it?"
      ∧ ContextVariables.variables (SKContext.variables c) !! "question" = Some "hi".
Proof.
  split; [apply run_stream_async_several|].
  eexists. split; [reflexivity|]. split; [reflexivity|]. reflexivity.
Qed.

Section StreamClaims.
Context {World : Type} `{PromptTemplatingEngine World}.
Import SKFunction.
Implicit Types (f : SKFunction World) (st : Store World) (ctx : SKContext).

(** C7.  For a semantic function over a text template (not a chat one) whose
    client streams the chunks [chunks] without a fault, the stream consumed to
    its end delivers these chunks and leaves in the input slot of the Context
    their concatenation in order; a non-streaming invocation whose client
    completes with that same text returns the same Context. *)
Theorem stream_concatenation_matches_completion
    f cfg tpl client ctx st prompt w1 chunks w2 w2' :
  _function f = Semantic cfg →
  prompt_template cfg = TextTemplate tpl →
  _ai_service f = Some client →
  render_async tpl (_ensure_context_has_skills f ctx) (world st) = (Ret prompt, w1) →
  complete_stream_async client prompt (_ai_request_settings f) w1 = (chunks, None, w2) →
  complete_async client prompt (_ai_request_settings f) w1
    = (Ret (String.concat "" chunks), w2') →
  let streamed := (invoke_stream_async f None None (Some ctx) None None st).1 in
  let called := (invoke_async f None None (Some ctx) None None st).1 in
  yielded streamed = chunks
  ∧ raised streamed = None
  ∧ SKContext.input (context_after streamed) = String.concat "" chunks
  ∧ called = context_after streamed.
Proof.
  intros Hf Ht Hc Hr Hs Hcompl.
  unfold invoke_stream_async, invoke_async, try_body, is_semantic.
  rewrite Hf. simpl.
  unfold _invoke_semantic_stream_async, _invoke_semantic_async,
    _local_stream_func, _local_func.
  rewrite Hf, Hc, Ht. simpl. rewrite Hr, Hs, Hcompl. simpl.
  rewrite accumulate_from_empty. repeat split.
  apply set_variables_same.
Qed.

(** C4, as the code has it.  A fault of the AI client while the stream of a
    semantic function is consumed is recorded on the Context with [fail] and
    the stream ends there, without an exception for the consumer; the chunks
    delivered before the fault stay delivered.  This holds for a text
    template and for a chat template, and with a client attached no stream
    of a semantic function ever raises.  The consumer gets the wrapped
    [KernelException], after the Context has been marked failed, when the
    fault is raised outside the guard of the streaming delegate: no client
    attached. *)
Theorem stream_fault_recorded_on_context :
  (∀ f cfg tpl client ctx st prompt w1 chunks e w2,
     _function f = Semantic cfg →
     prompt_template cfg = TextTemplate tpl →
     _ai_service f = Some client →
     render_async tpl (_ensure_context_has_skills f ctx) (world st) = (Ret prompt, w1) →
     complete_stream_async client prompt (_ai_request_settings f) w1
       = (chunks, Some e, w2) →
     invoke_stream_async f None None (Some ctx) None None st
       = ({| yielded := chunks; raised := None;
             context_after :=
               SKContext.fail (_ensure_context_has_skills f ctx) (str e) e |},
          set_world st w2))
  ∧ (∀ f cfg loc client ctx st messages chat1 w1 items e w2,
       _function f = Semantic cfg →
       prompt_template cfg = ChatTemplate loc →
       _ai_service f = Some client →
       ChatPromptTemplate.render_messages_async (deref st loc)
         (_ensure_context_has_skills f ctx) (world st) = (Ret messages, chat1, w1) →
       complete_chat_stream_async client messages (_ai_request_settings f) w1
         = (items, Some e, w2) →
       let r := (invoke_stream_async f None None (Some ctx) None None st).1 in
       yielded r
         = (consume_chat_stream items "" chat1 (_ensure_context_has_skills f ctx)).1.1.1.1
       ∧ raised r = None
       ∧ SKContext.error_occurred (context_after r) = true)
  ∧ (∀ f cfg client ctx st,
       _function f = Semantic cfg →
       _ai_service f = Some client →
       raised (invoke_stream_async f None None (Some ctx) None None st).1 = None)
  ∧ (∀ f cfg ctx st,
       _function f = Semantic cfg →
       _ai_service f = None →
       let e := Exn ValueError "AI LLM service cannot be `None`" in
       invoke_stream_async f None None (Some ctx) None None st
         = ({| yielded := []; raised := Some kernel_exception_stream;
               context_after :=
                 SKContext.fail (_ensure_context_has_skills f ctx) (str e) e |}, st)).
Proof.
  split; [|split; [|split]].
  - intros f cfg tpl client ctx st prompt w1 chunks e w2 Hf Ht Hc Hr Hs.
    unfold invoke_stream_async, is_semantic. rewrite Hf. simpl.
    unfold _invoke_semantic_stream_async, _local_stream_func.
    rewrite Hf, Hc, Ht. simpl. by rewrite Hr, Hs.
  - intros f cfg loc client ctx st messages chat1 w1 items e w2 Hf Ht Hc Hr Hs.
    unfold invoke_stream_async, is_semantic. rewrite Hf. simpl.
    unfold _invoke_semantic_stream_async, _local_stream_func.
    rewrite Hf, Hc, Ht. simpl. rewrite Hr, Hs.
    destruct (consume_chat_stream items "" chat1 (_ensure_context_has_skills f ctx))
      as [[[[ys completion] chat2] ctx2] part_fault].
    by destruct part_fault.
  - intros f cfg client ctx st Hf Hc.
    unfold invoke_stream_async, is_semantic. rewrite Hf. simpl.
    unfold _invoke_semantic_stream_async, _local_stream_func.
    rewrite Hf, Hc. simpl.
    repeat (case_match; simplify_eq/=; try done).
  - intros f cfg ctx st Hf Hc.
    unfold invoke_stream_async, is_semantic. rewrite Hf. simpl.
    unfold _invoke_semantic_stream_async, _local_stream_func.
    by rewrite Hf, Hc.
Qed.
End StreamClaims.

Lemma stream_concatenation_matches_completion_witness :
  let streamed :=
    (SKFunction.invoke_stream_async (Examples.writer Examples.abc_client)
       None None (Some Examples.ctx0) None None Examples.st0).1 in
  let called :=
    (SKFunction.invoke_async (Examples.writer Examples.abc_client)
       None None (Some Examples.ctx0) None None Examples.st0).1 in
  yielded streamed = ["a"; "b"; "c"]
  ∧ raised streamed = None
  ∧ SKContext.input (context_after streamed) = "abc"
  ∧ called = context_after streamed.
Proof.
  refine (stream_concatenation_matches_completion
            (Examples.writer Examples.abc_client) _ _ _ Examples.ctx0 Examples.st0
            _ _ ["a"; "b"; "c"] _ _ _ _ _ _ _ _); reflexivity.
Defined.

(** C4 as stated fails: the client of [writer] raises after the chunk [a],
    and the consumer of the stream receives no exception. *)
Lemma stream_fault_not_raised_to_consumer :
  SKFunction.complete_stream_async Examples.broken_client "Write." ∅ 0
    = (["a"], Some Examples.boom_fault, 0)
  ∧ ¬ raised (SKFunction.invoke_stream_async (Examples.writer Examples.broken_client)
                None None (Some Examples.ctx0) None None Examples.st0).1
      = Some SKFunction.kernel_exception_stream.
Proof. split; [reflexivity | discriminate]. Qed.

Lemma stream_fault_recorded_on_context_witness :
  SKFunction.invoke_stream_async (Examples.writer Examples.broken_client)
    None None (Some Examples.ctx0) None None Examples.st0
  = ({| yielded := ["a"]; raised := None;
        context_after := SKContext.fail Examples.ctx0 "boom" Examples.boom_fault |},
     Examples.st0).
Proof.
  refine (proj1 stream_fault_recorded_on_context
            (Examples.writer Examples.broken_client) _ _ _ Examples.ctx0 Examples.st0
            _ _ ["a"] Examples.boom_fault 0 _ _ _ _ _); reflexivity.
Defined.

Section RegistryClaim.
Import Kernel.

(** C10.  In a registry whose default ids are each [None] or a registered id
    of their category, every operation that succeeds (add, set default,
    remove, clear, for text completion, chat and text embedding) leaves a
    registry of which this holds again.  When the service removed is the
    current default of its category, the new default is the oldest id that
    remains registered there, and [None] when none remains. *)
Theorem default_service_stays_registered (r : request) (k k' : services) :
  defaults_registered k →
  perform r k = Ret k' →
  defaults_registered k'
  ∧ (∀ i, r = RemoveTextCompletion i →
       _default_text_completion_service k = Some i →
       _default_text_completion_service k'
         = PyDict.first_key (_text_completion_services k'))
  ∧ (∀ i, r = RemoveChat i →
       _default_chat_service k = Some i →
       _default_chat_service k' = PyDict.first_key (_chat_services k'))
  ∧ (∀ i, r = RemoveTextEmbedding i →
       _default_text_embedding_generation_service k = Some i →
       _default_text_embedding_generation_service k'
         = PyDict.first_key (_text_embedding_generation_services k')).
Proof.
  intros Hk Hr. split; [by eapply perform_registered|].
  repeat split; intros i -> Hd; simpl in Hr.
  - unfold remove_text_completion_service in Hr.
    destruct (PyDict.contains i _); simpl in Hr; [|done]. injection Hr as <-.
    simpl. unfold default_after_removal. rewrite Hd. by rewrite bool_decide_eq_true_2.
  - unfold remove_chat_service in Hr.
    destruct (PyDict.contains i _); simpl in Hr; [|done]. injection Hr as <-.
    simpl. unfold default_after_removal. rewrite Hd. by rewrite bool_decide_eq_true_2.
  - unfold remove_text_embedding_generation_service in Hr.
    destruct (PyDict.contains i _); simpl in Hr; [|done]. injection Hr as <-.
    simpl. unfold default_after_removal. rewrite Hd. by rewrite bool_decide_eq_true_2.
Qed.
End RegistryClaim.

Lemma default_service_stays_registered_witness :
  Kernel.defaults_registered Examples.registry_ab
  ∧ ∃ k', Kernel.perform (Kernel.RemoveTextCompletion "a") Examples.registry_ab = Ret k'
          ∧ Kernel.defaults_registered k'
          ∧ Kernel._default_text_completion_service k' = Some "b".
Proof.
  assert (Kernel.defaults_registered Examples.registry_ab) as Hk.
  { repeat split; simpl; auto. apply list_elem_of_here. }
  split; [exact Hk|]. eexists. split; [reflexivity|].
  destruct (default_service_stays_registered (Kernel.RemoveTextCompletion "a")
              Examples.registry_ab _ Hk eq_refl) as (Hk' & Ht & _).
  split; [exact Hk'|]. exact (Ht "a" eq_refl eq_refl).
Defined.

(** ** Chat templates *)
Section ChatFacts.
Context {World : Type} `{PromptTemplatingEngine World}.
Implicit Types (m : ChatMessage) (t : ChatPromptTemplate) (ctx : SKContext).

(** Rendering a message changes its content only. *)
Lemma render_message_async_frame m ctx (w : World) :
  ChatMessage.role (ChatMessage.render_message_async m ctx w).1.1 = ChatMessage.role m
  ∧ ChatMessage.content_template (ChatMessage.render_message_async m ctx w).1.1
    = ChatMessage.content_template m.
Proof.
  unfold ChatMessage.render_message_async.
  destruct (ChatMessage.fixed_content m); [done|].
  destruct (ChatMessage.content_template m) as [tpl|] eqn:Ht; [|done].
  by destruct (render_async tpl ctx w) as [[s|e] w'].
Qed.

(** A message that has its content is left as it is. *)
Lemma render_message_async_fixed m ctx (w : World) c :
  ChatMessage.fixed_content m = Some c →
  ChatMessage.render_message_async m ctx w = (m, None, w).
Proof. intros Hc. unfold ChatMessage.render_message_async. by rewrite Hc. Qed.

Lemma gather_render_frame (ms : list ChatMessage) ctx : ∀ w : World,
  ChatMessage.role <$> (ChatPromptTemplate.gather_render ms ctx w).1.1
    = ChatMessage.role <$> ms
  ∧ ChatMessage.content_template <$> (ChatPromptTemplate.gather_render ms ctx w).1.1
    = ChatMessage.content_template <$> ms.
Proof.
  induction ms as [|m ms IH]; intros w; [done|].
  cbn [ChatPromptTemplate.gather_render].
  pose proof (render_message_async_frame m ctx w) as [Hr Ht].
  destruct (ChatMessage.render_message_async m ctx w) as [[m1 e1] w1].
  specialize (IH w1).
  destruct (ChatPromptTemplate.gather_render ms ctx w1) as [[ms1 e2] w2].
  cbn [fst] in *. destruct IH as [IHr IHt].
  rewrite !fmap_cons. by rewrite Hr, Ht, IHr, IHt.
Qed.

(** What the test of [render_messages_async] says of the messages. *)
Lemma ends_without_user_spec t :
  ChatPromptTemplate.ends_without_user t = true
  ↔ ChatPromptTemplate.messages t = []
    ∨ ∃ m, last (ChatPromptTemplate.messages t) = Some m
           ∧ (ChatMessage.role m = Some "assistant" ∨ ChatMessage.role m = Some "system").
Proof.
  unfold ChatPromptTemplate.ends_without_user.
  destruct (last (ChatPromptTemplate.messages t)) as [m|] eqn:Hl.
  - rewrite orb_true_iff, !bool_decide_eq_true. split.
    + intros Hm. right. by exists m.
    + intros [Hnil | (m' & [= <-] & Hm)]; [|done].
      rewrite Hnil in Hl. discriminate.
  - split; [|done]. intros _. left. by apply last_None.
Qed.



End ChatFacts.

Section ChatClaims.
Context {World : Type} `{PromptTemplatingEngine World}.
Import ChatPromptTemplate.
Implicit Types (t : ChatPromptTemplate) (ctx : SKContext).

(** C8, as the code has it.  [render_messages_async] appends a user message
    made of the raw template if and only if the template has no message or
    its last message is the assistant's or the system's.  The messages
    rendered are then the recorded ones, followed by that user message when
    appended, in order, each with its role and its own template; the list
    returned is their serialization. *)
Theorem render_appends_user_message_after_assistant_or_system t ctx (w : World) :
  let '(res, t', w') := render_messages_async t ctx w in
  let recorded :=
    messages (if ends_without_user t then add_user_message t (template t) else t) in
  (ends_without_user t = true
   ↔ messages t = []
     ∨ ∃ m, last (messages t) = Some m
            ∧ (ChatMessage.role m = Some "assistant" ∨ ChatMessage.role m = Some "system"))
  ∧ (messages (add_user_message t (template t))
     = messages t ++ [ {| ChatMessage.role := Some "user";
                          ChatMessage.fixed_content := None;
                          ChatMessage.content_template :=
                            if truthy (template t) then Some (template t) else None |} ])
  ∧ ChatMessage.role <$> messages t' = ChatMessage.role <$> recorded
  ∧ ChatMessage.content_template <$> messages t' = ChatMessage.content_template <$> recorded
  ∧ ∀ dicts, res = Ret dicts → dicts = ChatMessage.as_dict <$> messages t'.
Proof.
  unfold render_messages_async.
  set (t1 := if ends_without_user t then add_user_message t (template t) else t).
  pose proof (gather_render_frame (messages t1) ctx w) as [Hr Ht].
  destruct (gather_render (messages t1) ctx w) as [[ms e] w'].
  simpl in Hr, Ht.
  destruct e as [e|]; (split; [apply ends_without_user_spec|]);
    (split; [reflexivity|]); simpl; repeat split; try done.
  by intros dicts [= <-].
Qed.

End ChatClaims.

(** C8 as stated fails: the last message of [chat_tool_last] is a tool
    message, not the user's, and no user message is appended. *)
Lemma render_does_not_append_after_tool_message :
  let t := Examples.chat_tool_last in
  let t' := (ChatPromptTemplate.render_messages_async t Examples.ctx0 0).1.2 in
  ¬ (length (ChatPromptTemplate.messages t') = S (length (ChatPromptTemplate.messages t))
     ↔ ChatPromptTemplate.messages t = []
       ∨ ∃ m, last (ChatPromptTemplate.messages t) = Some m
              ∧ ChatMessage.role m ≠ Some "user").
Proof.
  intros t t' [_ Hif].
  assert (length (ChatPromptTemplate.messages t')
          = S (length (ChatPromptTemplate.messages t))) as Hlen.
  { apply Hif. right. eexists. split; [reflexivity | discriminate]. }
  vm_compute in Hlen. discriminate.
Qed.



Lemma render_appends_user_message_after_assistant_or_system_witness :
  let '(res, t', w') :=
    ChatPromptTemplate.render_messages_async Examples.empty_chat Examples.ctx0 0 in
  ChatMessage.role <$> ChatPromptTemplate.messages t' = [Some "user"]
  ∧ res = Ret [ [("role", "user"); ("content", "Template")] ].
Proof.
  generalize (render_appends_user_message_after_assistant_or_system
                Examples.empty_chat Examples.ctx0 0).
  destruct (ChatPromptTemplate.render_messages_async Examples.empty_chat Examples.ctx0 0)
    as [[res t'] w'] eqn:Hrender.
  intros (_ & _ & Hroles & _). split; [exact Hroles|].
  injection Hrender as <- _ _. reflexivity.
Defined.

(** * Further properties *)

(** ** Dictionaries, continued *)
Section MoreDictFacts.
Context {K V : Type} `{EqDecision K}.
Implicit Types (d : PyDict.dict K V) (k i : K) (v : V).

Lemma getitem_setitem_same k v d : PyDict.getitem k (PyDict.setitem k v d) = Some v.
Proof.
  induction d as [|[k' v'] d IH]; simpl.
  - by rewrite decide_True.
  - destruct (decide (k = k')) as [->|Hne]; simpl.
    + by rewrite decide_True.
    + by rewrite decide_False.
Qed.

Lemma getitem_setitem_other i k v d :
  i ≠ k → PyDict.getitem i (PyDict.setitem k v d) = PyDict.getitem i d.
Proof.
  intros Hne. induction d as [|[k' v'] d IH]; simpl.
  - by rewrite decide_False.
  - destruct (decide (k = k')) as [->|Hne']; simpl.
    + by rewrite !decide_False.
    + destruct (decide (i = k')); [done | apply IH].
Qed.

Lemma getitem_registered i d : i ∈ PyDict.keys d → is_Some (PyDict.getitem i d).
Proof.
  induction d as [|[k' v'] d IH]; simpl; intros Hi.
  - by apply elem_of_nil in Hi.
  - destruct (decide (i = k')); [by eexists|].
    apply IH. apply elem_of_cons in Hi. by destruct Hi.
Qed.

Lemma getitem_not_registered i d : i ∉ PyDict.keys d → PyDict.getitem i d = None.
Proof.
  induction d as [|[k' v'] d IH]; simpl; intros Hi; [done|].
  apply not_elem_of_cons in Hi as [Hne Hi]. rewrite decide_False by done. by apply IH.
Qed.

Lemma keys_setitem_registered k v d :
  k ∈ PyDict.keys d → PyDict.keys (PyDict.setitem k v d) = PyDict.keys d.
Proof.
  induction d as [|[k' v'] d IH]; simpl; intros Hk.
  - by apply elem_of_nil in Hk.
  - destruct (decide (k = k')) as [->|Hne]; simpl; [done|].
    f_equal. apply IH. apply elem_of_cons in Hk. by destruct Hk.
Qed.

Lemma keys_setitem_new k v d :
  k ∉ PyDict.keys d → PyDict.keys (PyDict.setitem k v d) = PyDict.keys d ++ [k].
Proof.
  induction d as [|[k' v'] d IH]; simpl; intros Hk; [done|].
  apply not_elem_of_cons in Hk as [Hne Hk]. rewrite decide_False by done.
  simpl. f_equal. by apply IH.
Qed.

Lemma keys_setitem_inv i k v d :
  i ∈ PyDict.keys (PyDict.setitem k v d) → i = k ∨ i ∈ PyDict.keys d.
Proof.
  induction d as [|[k' v'] d IH]; simpl; intros Hi.
  - apply elem_of_cons in Hi as [->|Hi]; [by left | by apply elem_of_nil in Hi].
  - destruct (decide (k = k')) as [->|Hne]; simpl in Hi.
    + apply elem_of_cons in Hi as [->|Hi]; [by left|]. right. by apply list_elem_of_further.
    + apply elem_of_cons in Hi as [->|Hi]; [right; apply list_elem_of_here|].
      destruct (IH Hi) as [->|Hd]; [by left|]. right. by apply list_elem_of_further.
Qed.

Lemma keys_delitem_inv i k d :
  i ∈ PyDict.keys (PyDict.delitem k d) → i ∈ PyDict.keys d.
Proof.
  induction d as [|[k' v'] d IH]; simpl; intros Hi; [done|].
  destruct (decide (k = k')) as [->|Hne]; simpl in Hi.
  - by apply list_elem_of_further.
  - apply elem_of_cons in Hi as [->|Hi]; [apply list_elem_of_here|].
    apply list_elem_of_further. by apply IH.
Qed.

Lemma NoDup_setitem k v d :
  NoDup (PyDict.keys d) → NoDup (PyDict.keys (PyDict.setitem k v d)).
Proof.
  intros Hd. destruct (decide (k ∈ PyDict.keys d)) as [Hin|Hout].
  - by rewrite keys_setitem_registered.
  - rewrite keys_setitem_new by done. apply NoDup_app. split; [done|].
    split; [|apply NoDup_singleton].
    intros x Hx Hx'. apply list_elem_of_singleton in Hx' as ->. done.
Qed.

Lemma NoDup_delitem k d :
  NoDup (PyDict.keys d) → NoDup (PyDict.keys (PyDict.delitem k d)).
Proof.
  induction d as [|[k' v'] d IH]; simpl; intros Hd; [done|].
  apply NoDup_cons in Hd as [Hk' Hd].
  destruct (decide (k = k')) as [->|Hne]; simpl; [done|].
  apply NoDup_cons. split; [|by apply IH].
  intros Hin. apply Hk'. by eapply keys_delitem_inv.
Qed.

Lemma delitem_gone k d :
  NoDup (PyDict.keys d) → k ∉ PyDict.keys (PyDict.delitem k d).
Proof.
  induction d as [|[k' v'] d IH]; simpl; intros Hd.
  - apply not_elem_of_nil.
  - apply NoDup_cons in Hd as [Hk' Hd].
    destruct (decide (k = k')) as [->|Hne]; simpl; [done|].
    apply not_elem_of_cons. split; [done | by apply IH].
Qed.

Lemma delitem_setitem_new k v d :
  k ∉ PyDict.keys d → PyDict.delitem k (PyDict.setitem k v d) = d.
Proof.
  induction d as [|[k' v'] d IH]; simpl; intros Hk.
  - by rewrite decide_True.
  - apply not_elem_of_cons in Hk as [Hne Hk]. rewrite decide_False by done.
    simpl. rewrite decide_False by done. f_equal. by apply IH.
Qed.

Lemma setitem_setitem k v v' d :
  PyDict.setitem k v' (PyDict.setitem k v d) = PyDict.setitem k v' d.
Proof.
  induction d as [|[k' w] d IH]; simpl.
  - by rewrite decide_True.
  - destruct (decide (k = k')) as [->|Hne]; simpl.
    + by rewrite decide_True.
    + rewrite decide_False by done. by rewrite IH.
Qed.

Lemma contains_false k d : PyDict.contains k d = false ↔ k ∉ PyDict.keys d.
Proof. unfold PyDict.contains. by rewrite bool_decide_eq_false. Qed.
End MoreDictFacts.

(** ** The AI service registry, continued *)
Section MoreRegistry.
Import Kernel.
Implicit Types (k : services) (i : string) (s : service).

Lemma or_default_given i d : truthy i = true → or_default (Some i) d = Some i.
Proof. unfold or_default. simpl. by intros ->. Qed.

Lemma add_text_completion_service_inv i s o k k' :
  add_text_completion_service i s o k = Ret k' →
  truthy i = true
  ∧ _text_completion_services k'
    = PyDict.setitem i (as_factory s) (_text_completion_services k)
  ∧ _chat_services k' = _chat_services k
  ∧ _text_embedding_generation_services k' = _text_embedding_generation_services k
  ∧ _default_text_completion_service k'
    = Some (default i (_default_text_completion_service k))
  ∧ _default_chat_service k' = _default_chat_service k
  ∧ _default_text_embedding_generation_service k'
    = _default_text_embedding_generation_service k.
Proof.
  unfold add_text_completion_service.
  destruct (truthy i); simpl; [|done].
  destruct (negb o && _); [done|]. intros [= <-]. simpl.
  by destruct (_default_text_completion_service k).
Qed.

Lemma add_chat_service_inv i s o k k' :
  add_chat_service i s o k = Ret k' →
  truthy i = true
  ∧ _chat_services k' = PyDict.setitem i (as_factory s) (_chat_services k)
  ∧ _default_chat_service k' = Some (default i (_default_chat_service k))
  ∧ _text_embedding_generation_services k' = _text_embedding_generation_services k
  ∧ _default_text_embedding_generation_service k'
    = _default_text_embedding_generation_service k
  ∧ (match s with
     | Instance c =>
         if is_text_completion_client c
         then _text_completion_services k'
              = PyDict.setitem i (Lambda c) (_text_completion_services k)
              ∧ _default_text_completion_service k'
                = Some (default i (_default_text_completion_service k))
         else _text_completion_services k' = _text_completion_services k
              ∧ _default_text_completion_service k' = _default_text_completion_service k
     | Callable _ =>
         _text_completion_services k' = _text_completion_services k
         ∧ _default_text_completion_service k' = _default_text_completion_service k
     end).
Proof.
  unfold add_chat_service.
  destruct (truthy i) eqn:Hi; simpl; [|done].
  destruct (negb o && _); [done|].
  assert (∀ d : option string,
            match d with None => Some i | Some x => Some x end = Some (default i d))
    as Hd by (by intros [x|]).
  destruct s as [c|f]; [destruct (is_text_completion_client c) eqn:Hc|].
  - intros Hadd. apply add_text_completion_service_inv in Hadd.
    destruct Hadd as (_ & Ht & Hch & He & Hdt & Hdc & Hde). simpl in *.
    rewrite Hch, Hdc, He, Hde, Ht, Hdt. by rewrite Hd.
  - intros [= <-]. simpl. by rewrite Hd.
  - intros [= <-]. simpl. by rewrite Hd.
Qed.

Lemma add_text_embedding_generation_service_inv i s o k k' :
  add_text_embedding_generation_service i s o k = Ret k' →
  truthy i = true
  ∧ _text_embedding_generation_services k'
    = PyDict.setitem i (as_factory s) (_text_embedding_generation_services k)
  ∧ _default_text_embedding_generation_service k'
    = Some (default i (_default_text_embedding_generation_service k))
  ∧ _text_completion_services k' = _text_completion_services k
  ∧ _chat_services k' = _chat_services k
  ∧ _default_text_completion_service k' = _default_text_completion_service k
  ∧ _default_chat_service k' = _default_chat_service k.
Proof.
  unfold add_text_embedding_generation_service.
  destruct (truthy i); simpl; [|done].
  destruct (negb o && _); [done|]. intros [= <-]. simpl.
  by destruct (_default_text_embedding_generation_service k).
Qed.

(** A service that has just been added is what [get_ai_service] resolves its
    id to, in each category. *)
Theorem added_service_is_resolved i s o k k' :
  (add_text_completion_service i s o k = Ret k' →
   get_ai_service TextCompletionClientBase (Some i) k' = Ret (as_factory s))
  ∧ (add_chat_service i s o k = Ret k' →
     get_ai_service ChatCompletionClientBase (Some i) k' = Ret (as_factory s))
  ∧ (add_text_embedding_generation_service i s o k = Ret k' →
     get_ai_service EmbeddingGeneratorBase (Some i) k' = Ret (as_factory s)).
Proof.
  repeat split; intros Hadd; unfold get_ai_service.
  - apply add_text_completion_service_inv in Hadd as (Hi & -> & _).
    by rewrite (or_default_given _ _ Hi), getitem_setitem_same.
  - apply add_chat_service_inv in Hadd as (Hi & -> & _).
    by rewrite (or_default_given _ _ Hi), getitem_setitem_same.
  - apply add_text_embedding_generation_service_inv in Hadd as (Hi & -> & _).
    by rewrite (or_default_given _ _ Hi), getitem_setitem_same.
Qed.

(** A chat client that is a text completion client too is registered under
    its id in both categories; any other chat service leaves the text
    completion services as they were. *)
Theorem chat_service_registers_text_completion i s o k k' :
  add_chat_service i s o k = Ret k' →
  match s with
  | Instance c =>
      if is_text_completion_client c
      then get_ai_service ChatCompletionClientBase (Some i) k' = Ret (Lambda c)
           ∧ get_ai_service TextCompletionClientBase (Some i) k' = Ret (Lambda c)
           ∧ i ∈ all_text_completion_services k'
      else all_text_completion_services k' = all_text_completion_services k
  | Callable _ => all_text_completion_services k' = all_text_completion_services k
  end.
Proof.
  intros Hadd. pose proof (add_chat_service_inv _ _ _ _ _ Hadd) as (Hi & Hc & _ & _ & _ & Ht).
  unfold get_ai_service, all_text_completion_services.
  destruct s as [c|f]; [destruct (is_text_completion_client c)|].
  - destruct Ht as [Ht _]. rewrite Hc, Ht, !or_default_given by done.
    rewrite !getitem_setitem_same. repeat split. apply keys_setitem_same.
  - destruct Ht as [Ht _]. by rewrite Ht.
  - destruct Ht as [Ht _]. by rewrite Ht.
Qed.

Definition is_add (r : request) : bool :=
  match r with
  | AddTextCompletion _ _ _ | AddChat _ _ _ | AddTextEmbedding _ _ _ => true
  | _ => false
  end.

Lemma add_keeps_text_default r k d :
  is_add r = true →
  _default_text_completion_service k = Some d →
  _default_text_completion_service
    (match perform r k with Ret k' => k' | Raise _ => k end) = Some d.
Proof.
  intros Hr Hd. destruct (perform r k) as [k'|e] eqn:Hp; [|done].
  destruct r as [i s o|i s o|i s o| | | | | | | | | |]; try done; simpl in Hp.
  - apply add_text_completion_service_inv in Hp as (_ & _ & _ & _ & -> & _).
    by rewrite Hd.
  - apply add_chat_service_inv in Hp as (_ & _ & _ & _ & _ & Ht).
    destruct s as [c|f]; [destruct (is_text_completion_client c)|];
      destruct Ht as [_ ->]; by rewrite Hd.
  - apply add_text_embedding_generation_service_inv in Hp
      as (_ & _ & _ & _ & _ & -> & _). done.
Qed.

(** The first text completion service registered with a new kernel is the
    default, and stays the default whatever services are added after it. *)
Theorem first_registered_service_is_default i s o (more : list request) :
  truthy i = true →
  Forall (λ r, is_add r = true) more →
  _default_text_completion_service
    (perform_all (AddTextCompletion i s o :: more) no_services) = Some i.
Proof.
  intros Hi Hmore. unfold perform_all. simpl.
  unfold add_text_completion_service. rewrite Hi. simpl.
  rewrite andb_false_r.
  set (k1 := Build_services _ _ _ _ _ _).
  assert (_default_text_completion_service k1 = Some i) as Hd by done.
  clearbody k1. revert k1 Hd.
  induction Hmore as [|r more Hr _ IH]; intros k1 Hd; [done|].
  simpl. apply IH. by apply add_keeps_text_default.
Qed.

(** Adding under an id that is registered already: with [overwrite] the
    factory is replaced where it stands (the ids and their order, and the
    default, are as before); without, the call raises. *)
Theorem overwrite_replaces_in_place i s k :
  truthy i = true →
  i ∈ all_text_completion_services k →
  (∃ k', add_text_completion_service i s true k = Ret k'
         ∧ all_text_completion_services k' = all_text_completion_services k
         ∧ (∀ d, _default_text_completion_service k = Some d →
                 _default_text_completion_service k' = Some d)
         ∧ get_ai_service TextCompletionClientBase (Some i) k' = Ret (as_factory s))
  ∧ add_text_completion_service i s false k = Raise (already_exists "Text" i).
Proof.
  intros Hi Hin. split.
  - destruct (add_text_completion_service i s true k) as [k'|e] eqn:Hadd.
    + exists k'. split; [done|].
      apply add_text_completion_service_inv in Hadd as (_ & Ht & _ & _ & Hd & _).
      unfold all_text_completion_services, get_ai_service. rewrite Ht.
      split; [by apply keys_setitem_registered|]. split.
      * intros d Hd'. by rewrite Hd, Hd'.
      * by rewrite or_default_given, getitem_setitem_same.
    + unfold add_text_completion_service in Hadd. by rewrite Hi in Hadd.
  - unfold add_text_completion_service. rewrite Hi. simpl.
    by rewrite (proj2 (contains_true i _) Hin).
Qed.

Lemma perform_distinct r k k' :
  distinct_ids k → perform r k = Ret k' → distinct_ids k'.
Proof.
  intros (Ht & Hc & He) Hp.
  destruct r as [i s o|i s o|i s o|i|i|i|i|i|i| | | |]; simpl in Hp.
  - apply add_text_completion_service_inv in Hp as (_ & Ht' & Hc' & He' & _).
    repeat split; rewrite ?Ht', ?Hc', ?He'; auto using NoDup_setitem.
  - apply add_chat_service_inv in Hp as (_ & Hc' & _ & He' & _ & Ht').
    assert (NoDup (PyDict.keys (_text_completion_services k'))).
    { destruct s as [c|f]; [destruct (is_text_completion_client c)|];
        destruct Ht' as [-> _]; auto using NoDup_setitem. }
    repeat split; rewrite ?Hc', ?He'; auto using NoDup_setitem.
  - apply add_text_embedding_generation_service_inv in Hp
      as (_ & He' & _ & Ht' & Hc' & _).
    repeat split; rewrite ?Ht', ?Hc', ?He'; auto using NoDup_setitem.
  - unfold set_default_text_completion_service in Hp.
    destruct (PyDict.contains i _); simpl in Hp; [|done]. by injection Hp as <-.
  - unfold set_default_chat_service in Hp.
    destruct (PyDict.contains i _); simpl in Hp; [|done]. by injection Hp as <-.
  - unfold set_default_text_embedding_generation_service in Hp.
    destruct (PyDict.contains i _); simpl in Hp; [|done]. by injection Hp as <-.
  - unfold remove_text_completion_service in Hp.
    destruct (PyDict.contains i _); simpl in Hp; [|done]. injection Hp as <-.
    repeat split; simpl; auto using NoDup_delitem.
  - unfold remove_chat_service in Hp.
    destruct (PyDict.contains i _); simpl in Hp; [|done]. injection Hp as <-.
    repeat split; simpl; auto using NoDup_delitem.
  - unfold remove_text_embedding_generation_service in Hp.
    destruct (PyDict.contains i _); simpl in Hp; [|done]. injection Hp as <-.
    repeat split; simpl; auto using NoDup_delitem.
  - injection Hp as <-. repeat split; simpl; auto using NoDup_nil_2.
  - injection Hp as <-. repeat split; simpl; auto using NoDup_nil_2.
  - injection Hp as <-. repeat split; simpl; auto using NoDup_nil_2.
  - injection Hp as <-. repeat split; simpl; auto using NoDup_nil_2.
Qed.
End MoreRegistry.

Section MoreRegistry2.
Import Kernel.
Implicit Types (k : services) (i : string) (s : service).

Lemma delitem_keys (i : string) (d : PyDict.dict string factory) :
  NoDup (PyDict.keys d) →
  (i ∉ PyDict.keys (PyDict.delitem i d))
  ∧ (∀ j, j ≠ i → (j ∈ PyDict.keys (PyDict.delitem i d) ↔ j ∈ PyDict.keys d)).
Proof.
  intros Hd. split; [by apply delitem_gone|].
  intros j Hj. split; [apply keys_delitem_inv | by apply keys_delitem_other].
Qed.

(** Once removed, a service id is no longer registered in its category, and
    the other ids of the category are those that were there. *)
Theorem removed_service_is_gone i k k' :
  distinct_ids k →
  (remove_text_completion_service i k = Ret k' →
   (i ∉ all_text_completion_services k')
   ∧ (∀ j, j ≠ i →
        (j ∈ all_text_completion_services k' ↔ j ∈ all_text_completion_services k)))
  ∧ (remove_chat_service i k = Ret k' →
     (i ∉ all_chat_services k')
     ∧ (∀ j, j ≠ i → (j ∈ all_chat_services k' ↔ j ∈ all_chat_services k)))
  ∧ (remove_text_embedding_generation_service i k = Ret k' →
     (i ∉ all_text_embedding_generation_services k')
     ∧ (∀ j, j ≠ i →
          (j ∈ all_text_embedding_generation_services k'
           ↔ j ∈ all_text_embedding_generation_services k))).
Proof.
  intros (Ht & Hc & He). split; [|split]; intros Hr.
  - unfold remove_text_completion_service in Hr.
    destruct (PyDict.contains i _); simpl in Hr; [|done]. injection Hr as <-.
    by apply delitem_keys.
  - unfold remove_chat_service in Hr.
    destruct (PyDict.contains i _); simpl in Hr; [|done]. injection Hr as <-.
    by apply delitem_keys.
  - unfold remove_text_embedding_generation_service in Hr.
    destruct (PyDict.contains i _); simpl in Hr; [|done]. injection Hr as <-.
    by apply delitem_keys.
Qed.

Lemma reachable_distinct_ids rs : distinct_ids (perform_all rs no_services).
Proof.
  unfold perform_all.
  assert (distinct_ids no_services) as H0
    by (repeat split; simpl; apply NoDup_nil_2).
  revert H0. generalize no_services. induction rs as [|r rs IH]; intros k Hk; [done|].
  simpl. apply IH. destruct (perform r k) as [k'|e] eqn:Hr; [|done].
  by eapply perform_distinct.
Qed.

Lemma default_iff_service_add i (f : factory) d m :
  default_iff_service (Some (default i d)) (PyDict.setitem i f m).
Proof.
  split; [done|]. intros Hnil.
  pose proof (keys_setitem_same i f m) as Hin. rewrite Hnil in Hin.
  by apply elem_of_nil in Hin.
Qed.

Lemma default_iff_service_removal i d (m : PyDict.dict string factory) :
  default_registered d m →
  default_iff_service d m →
  default_iff_service (default_after_removal i (PyDict.delitem i m) d)
    (PyDict.delitem i m).
Proof.
  intros Hreg Hiff. unfold default_after_removal, default_iff_service.
  case_bool_decide as Heq.
  - apply first_key_none.
  - destruct d as [j|]; simpl in *.
    + split; [done|]. intros Hnil.
      assert (j ∈ PyDict.keys (PyDict.delitem i m)) as Hin
        by (apply keys_delitem_other; [congruence | done]).
      rewrite Hnil in Hin. by apply elem_of_nil in Hin.
    + split; [|done]. intros _. rewrite (proj1 Hiff eq_refl). done.
Qed.

Lemma default_iff_service_set i (m : PyDict.dict string factory) :
  PyDict.contains i m = true → default_iff_service (Some i) m.
Proof.
  intros Hin. apply contains_true in Hin. split; [done|].
  intros Hnil. rewrite Hnil in Hin. by apply elem_of_nil in Hin.
Qed.

Lemma perform_defaults_iff_services r k k' :
  defaults_registered k → defaults_iff_services k →
  perform r k = Ret k' → defaults_iff_services k'.
Proof.
  intros (Rt & Rc & Re) (It & Ic & Ie) Hp.
  destruct r as [i s o|i s o|i s o|i|i|i|i|i|i| | | |]; simpl in Hp.
  - apply add_text_completion_service_inv in Hp
      as (_ & Ht & Hc & He & Hdt & Hdc & Hde).
    repeat split; rewrite ?Ht, ?Hc, ?He, ?Hdt, ?Hdc, ?Hde;
      try apply default_iff_service_add; first [apply It | apply Ic | apply Ie].
  - apply add_chat_service_inv in Hp as (_ & Hc & Hdc & He & Hde & Ht).
    assert (default_iff_service (_default_text_completion_service k')
              (_text_completion_services k')) as It'.
    { destruct s as [c|f]; [destruct (is_text_completion_client c)|];
        destruct Ht as [-> ->]; auto using default_iff_service_add. }
    split; [exact It'|]. rewrite Hc, Hdc, He, Hde.
    split; [apply default_iff_service_add | exact Ie].
  - apply add_text_embedding_generation_service_inv in Hp
      as (_ & He & Hde & Ht & Hc & Hdt & Hdc).
    unfold defaults_iff_services. rewrite Ht, Hc, He, Hdt, Hdc, Hde.
    split; [exact It|]. split; [exact Ic | apply default_iff_service_add].
  - unfold set_default_text_completion_service in Hp.
    destruct (PyDict.contains i _) eqn:Hin; simpl in Hp; [|done]. injection Hp as <-.
    split; [by apply default_iff_service_set | by split].
  - unfold set_default_chat_service in Hp.
    destruct (PyDict.contains i _) eqn:Hin; simpl in Hp; [|done]. injection Hp as <-.
    split; [done|]. split; [by apply default_iff_service_set | done].
  - unfold set_default_text_embedding_generation_service in Hp.
    destruct (PyDict.contains i _) eqn:Hin; simpl in Hp; [|done]. injection Hp as <-.
    split; [done|]. split; [done | by apply default_iff_service_set].
  - unfold remove_text_completion_service in Hp.
    destruct (PyDict.contains i _); simpl in Hp; [|done]. injection Hp as <-.
    split; [by apply default_iff_service_removal | by split].
  - unfold remove_chat_service in Hp.
    destruct (PyDict.contains i _); simpl in Hp; [|done]. injection Hp as <-.
    split; [done|]. split; [by apply default_iff_service_removal | done].
  - unfold remove_text_embedding_generation_service in Hp.
    destruct (PyDict.contains i _); simpl in Hp; [|done]. injection Hp as <-.
    split; [done|]. split; [done | by apply default_iff_service_removal].
  - injection Hp as <-. split; [by split | by split].
  - injection Hp as <-. split; [done|]. split; [by split | done].
  - injection Hp as <-. split; [done|]. split; [done | by split].
  - injection Hp as <-. split; [by split|]. split; by split.
Qed.

Lemma reachable_invariants rs :
  defaults_registered (perform_all rs no_services)
  ∧ defaults_iff_services (perform_all rs no_services).
Proof.
  unfold perform_all.
  assert (defaults_registered no_services ∧ defaults_iff_services no_services) as H0
    by (by repeat split).
  revert H0. generalize no_services.
  induction rs as [|r rs IH]; intros k Hk; [done|].
  simpl. apply IH. destruct (perform r k) as [k'|e] eqn:Hr; [|done].
  destruct Hk as [Hreg Hiff]. split.
  - by eapply perform_registered.
  - by eapply perform_defaults_iff_services.
Qed.

Lemma get_ai_service_default (type : service_type) (d : option string)
    (m : PyDict.dict string factory) :
  default_registered d m → default_iff_service d m →
  (∃ f, match d with
        | None => Raise (not_found type None)
        | Some i =>
            match PyDict.getitem i m with
            | Some f => Ret f
            | None => Raise (not_found type d)
            end
        end = Ret f)
  ↔ m ≠ [].
Proof.
  intros Hreg Hiff. destruct d as [i|]; simpl in *.
  - destruct (getitem_registered i m Hreg) as [f ->]. split; [|by eexists].
    intros _ Hnil. by apply Hiff in Hnil.
  - split; [by intros [f ?]|]. intros Hne. destruct Hne. by apply Hiff.
Qed.

(** For every registry reached from a new kernel: asking [get_ai_service]
    for a category without naming an id succeeds exactly when a service of
    the category is registered. *)
Theorem default_service_resolves_iff_registered (rs : list request) :
  let k := perform_all rs no_services in
  ((∃ f, get_ai_service TextCompletionClientBase None k = Ret f)
   ↔ all_text_completion_services k ≠ [])
  ∧ ((∃ f, get_ai_service ChatCompletionClientBase None k = Ret f)
     ↔ all_chat_services k ≠ [])
  ∧ ((∃ f, get_ai_service EmbeddingGeneratorBase None k = Ret f)
     ↔ all_text_embedding_generation_services k ≠ []).
Proof.
  intros k. destruct (reachable_invariants rs) as ((Rt & Rc & Re) & (It & Ic & Ie)).
  fold k in Rt, Rc, Re, It, Ic, Ie.
  assert (∀ m : PyDict.dict string factory, PyDict.keys m ≠ [] ↔ m ≠ []) as Hkeys.
  { intros m. by destruct m. }
  unfold get_ai_service, all_text_completion_services, all_chat_services,
    all_text_embedding_generation_services, or_default. simpl.
  rewrite !Hkeys.
  split; [|split]; by apply get_ai_service_default.
Qed.

(** The id that [get_*_service_id] answers with is a registered one, whether
    it is the id asked for or the default it falls back to. *)
Theorem resolved_service_id_is_registered (service_id : option string) k i :
  defaults_registered k →
  (get_text_completion_service_service_id service_id k = Ret i →
   i ∈ all_text_completion_services k)
  ∧ (get_chat_service_service_id service_id k = Ret i → i ∈ all_chat_services k)
  ∧ (get_text_embedding_generation_service_id service_id k = Ret i →
     i ∈ all_text_embedding_generation_services k).
Proof.
  intros (Rt & Rc & Re).
  assert (∀ msg (m : PyDict.dict string factory) d,
            default_registered d m →
            service_id_or_default msg service_id m d = Ret i → i ∈ PyDict.keys m) as Hgen.
  { intros msg m d Hreg. unfold service_id_or_default.
    destruct service_id as [j|].
    - destruct (PyDict.contains j m) eqn:Hin.
      + intros [= <-]. by apply contains_true.
      + destruct d as [x|]; [|done]. by intros [= <-].
    - destruct d as [x|]; [|done]. by intros [= <-]. }
  split; [|split]; by apply Hgen.
Qed.
End MoreRegistry2.

Lemma added_service_is_resolved_witness :
  Kernel.get_ai_service Kernel.TextCompletionClientBase (Some "c")
    (Kernel.perform_all [Kernel.AddTextCompletion "c" (Callable 3) false]
       Examples.registry_ab)
  = Ret (Given 3).
Proof.
  exact (proj1 (added_service_is_resolved "c" (Callable 3) false
                  Examples.registry_ab _) eq_refl).
Defined.

Lemma chat_service_registers_text_completion_witness :
  ∃ k', Kernel.add_chat_service "chat" (Instance Examples.chat_and_text) true
          Kernel.no_services = Ret k'
        ∧ Kernel.all_text_completion_services k' = ["chat"]
        ∧ Kernel.get_ai_service Kernel.TextCompletionClientBase None k'
          = Ret (Lambda Examples.chat_and_text).
Proof.
  eexists. split; [reflexivity|]. split; [reflexivity|].
  exact (proj1 (proj2 (chat_service_registers_text_completion "chat"
                         (Instance Examples.chat_and_text) true
                         Kernel.no_services _ eq_refl))).
Defined.

Lemma first_registered_service_is_default_witness :
  Kernel._default_text_completion_service
    (Kernel.perform_all
       [Kernel.AddTextCompletion "a" (Callable 1) true;
        Kernel.AddChat "b" (Instance Examples.chat_and_text) true;
        Kernel.AddTextCompletion "c" (Callable 3) true]
       Kernel.no_services) = Some "a".
Proof.
  apply (first_registered_service_is_default "a" (Callable 1) true
           [Kernel.AddChat "b" (Instance Examples.chat_and_text) true;
            Kernel.AddTextCompletion "c" (Callable 3) true]).
  - reflexivity.
  - repeat constructor.
Defined.

Lemma overwrite_replaces_in_place_witness :
  Kernel.add_text_completion_service "a" (Callable 9) false Examples.registry_ab
  = Raise (Kernel.already_exists "Text" "a")
  ∧ ∃ k', Kernel.add_text_completion_service "a" (Callable 9) true Examples.registry_ab
          = Ret k'
          ∧ Kernel.all_text_completion_services k' = ["a"; "b"].
Proof.
  destruct (overwrite_replaces_in_place "a" (Callable 9) Examples.registry_ab eq_refl)
    as [(k' & Hadd & Hall & _) Hraise].
  - apply list_elem_of_here.
  - split; [exact Hraise|]. exists k'. split; [exact Hadd | exact Hall].
Defined.

Lemma removed_service_is_gone_witness :
  ∃ k', Kernel.remove_text_completion_service "a" Examples.registry_ab = Ret k'
        ∧ ("a" ∉ Kernel.all_text_completion_services k')
        ∧ ("b" ∈ Kernel.all_text_completion_services k').
Proof.
  eexists. split; [reflexivity|].
  destruct (proj1 (removed_service_is_gone "a" Examples.registry_ab _
                     (reachable_distinct_ids _)) eq_refl) as [Hgone Hkept].
  split; [exact Hgone|]. apply Hkept; [discriminate|].
  apply list_elem_of_further, list_elem_of_here.
Defined.

Lemma resolved_service_id_is_registered_witness :
  Kernel.get_text_completion_service_service_id (Some "zz") Examples.registry_ab
  = Ret "a"
  ∧ "a" ∈ Kernel.all_text_completion_services Examples.registry_ab.
Proof.
  split; [reflexivity|].
  refine (proj1 (resolved_service_id_is_registered (Some "zz") Examples.registry_ab "a" _)
            eq_refl).
  apply reachable_defaults_registered.
Defined.

(** ** The pipeline, continued *)
Section MorePipeline.
Context {World : Type} `{PromptTemplatingEngine World}.
Import Kernel.
Implicit Types (k : Kernel World) (f A B : SKFunction World)
  (st : SKFunction.Store World) (ctx : SKContext).

Lemma set_world_same st : SKFunction.set_world st (SKFunction.world st) = st.
Proof. by destruct st. Qed.

(** The pre-invocation handlers run without a fault and ask to cancel. *)
Definition asks_to_cancel k (function_view : FunctionView) ctx (w w1 : World) : Prop :=
  ∃ args, on_function_invoking k function_view ctx w = (Ret args, w1)
          ∧ cancel_requested args = true.

(** The post-invocation handlers run without a fault and ask to cancel. *)
Definition asks_to_cancel_after k (function_view : FunctionView) ctx (w w3 : World)
  : Prop :=
  ∃ args, on_function_invoked k function_view ctx w = (Ret args, w3)
          ∧ cancel_requested_after args = true.

(** A run handed a Context that has failed already returns it as it is: no
    handler is called, no function is invoked. *)
Theorem failed_context_is_returned_at_once fuel k f (rest : list (pyobj World)) ctx st :
  SKContext.error_occurred ctx = true →
  run_async (S fuel) k (PyFunction f :: rest) (Some ctx) None None st
    = (RunReturn ctx, st, []).
Proof.
  intros Herr. unfold run_async. simpl seed_context.
  rewrite for_functions_unfold, while_true_unfold. unfold loop_body. by rewrite Herr.
Qed.

(** When the pre-invocation handlers ask to cancel, the run stops there and
    returns the Context as it was: the function is not invoked and neither
    are the functions after it, whether or not skip is asked for as well. *)
Theorem cancel_before_invocation_stops_run fuel k f (rest : list (pyobj World))
    ctx st w1 :
  SKContext.error_occurred ctx = false →
  asks_to_cancel k (SKFunction.describe f) ctx (SKFunction.world st) w1 →
  run_async (S fuel) k (PyFunction f :: rest) (Some ctx) None None st
    = (RunReturn ctx, SKFunction.set_world st w1, []).
Proof.
  intros Hok (args & Hpre & Hc). unfold run_async. simpl seed_context.
  rewrite for_functions_unfold, while_true_unfold. unfold loop_body.
  by rewrite Hok, Hpre, Hc.
Qed.

(** When the post-invocation handlers ask to cancel, the run stops after that
    one invocation and returns the Context the function produced: the function
    is not repeated, whether or not repeat is asked for as well, and the
    functions after it are not invoked. *)
Theorem cancel_after_invocation_stops_run fuel k f (rest : list (pyobj World))
    ctx st w1 ctx' st2 w3 :
  SKContext.error_occurred ctx = false →
  lets_through k (SKFunction.describe f) ctx (SKFunction.world st) w1 →
  SKFunction.invoke_async f None None (Some ctx) None None (SKFunction.set_world st w1)
    = (ctx', st2) →
  SKContext.error_occurred ctx' = false →
  asks_to_cancel_after k (SKFunction.describe f) ctx' (SKFunction.world st2) w3 →
  run_async (S fuel) k (PyFunction f :: rest) (Some ctx) None None st
    = (RunReturn ctx', SKFunction.set_world st2 w3,
       [Invoked 0 (SKFunction.describe f)]).
Proof.
  intros Hok (args & Hpre & Hc & Hs) Hcall Hok' (args' & Hpost & Hc').
  unfold run_async. simpl seed_context.
  rewrite for_functions_unfold, while_true_unfold. unfold loop_body.
  by rewrite Hok, Hpre, Hc, Hs, Hcall, Hok', Hpost, Hc'.
Qed.

(** A fault raised by an event handler does not escape the run: it is
    recorded on the current Context, which the run returns.  A pre-invocation
    handler that raises keeps the function from being invoked; a
    post-invocation handler that raises marks as failed the Context the
    function had produced. *)
Theorem handler_fault_is_recorded fuel k f (rest : list (pyobj World)) ctx st :
  SKContext.error_occurred ctx = false →
  (∀ e w1,
     on_function_invoking k (SKFunction.describe f) ctx (SKFunction.world st)
       = (Raise e, w1) →
     run_async (S fuel) k (PyFunction f :: rest) (Some ctx) None None st
       = (RunReturn (SKContext.fail ctx (str e) e), SKFunction.set_world st w1, []))
  ∧ (∀ w1 ctx' st2 e w3,
       lets_through k (SKFunction.describe f) ctx (SKFunction.world st) w1 →
       SKFunction.invoke_async f None None (Some ctx) None None
         (SKFunction.set_world st w1) = (ctx', st2) →
       SKContext.error_occurred ctx' = false →
       on_function_invoked k (SKFunction.describe f) ctx' (SKFunction.world st2)
         = (Raise e, w3) →
       run_async (S fuel) k (PyFunction f :: rest) (Some ctx) None None st
         = (RunReturn (SKContext.fail ctx' (str e) e), SKFunction.set_world st2 w3,
            [Invoked 0 (SKFunction.describe f)])).
Proof.
  intros Hok. split.
  - intros e w1 Hpre. unfold run_async. simpl seed_context.
    rewrite for_functions_unfold, while_true_unfold. unfold loop_body.
    by rewrite Hok, Hpre.
  - intros w1 ctx' st2 e w3 (args & Hpre & Hc & Hs) Hcall Hok' Hpost.
    unfold run_async. simpl seed_context.
    rewrite for_functions_unfold, while_true_unfold. unfold loop_body.
    by rewrite Hok, Hpre, Hc, Hs, Hcall, Hok', Hpost.
Qed.

Lemma no_handlers_lets_through k (fv : FunctionView) ctx (w : World) :
  _function_invoking_handlers k = [] → lets_through k fv ctx w w.
Proof. intros Hh. exists None. unfold on_function_invoking. by rewrite Hh. Qed.

Lemma no_handlers_pass k f step ctx st ctx' st' :
  _function_invoking_handlers k = [] →
  _function_invoked_handlers k = [] →
  SKContext.error_occurred ctx = false →
  SKFunction.invoke_async f None None (Some ctx) None None st = (ctx', st') →
  loop_body k (PyFunction f) step ctx st
    = (if SKContext.error_occurred ctx' then Return_ ctx' else Break_ ctx', st',
       [Invoked step (SKFunction.describe f)]).
Proof.
  intros Hpre Hpost Hok Hcall. unfold loop_body, on_function_invoking, on_function_invoked.
  rewrite Hok, Hpre, Hpost. simpl. rewrite set_world_same, Hcall.
  destruct (SKContext.error_occurred ctx'); [done|]. by rewrite set_world_same.
Qed.

(** With no handler registered, a run over two functions is the second
    invoked on the Context the first returned: when the first succeeds, the
    run returns what the second returns, failed or not, after exactly these
    two invocations, at steps 0 and 1. *)
Theorem pipeline_feeds_context_forward fuel k A B ctx st ctxA stA ctxB stB :
  _function_invoking_handlers k = [] →
  _function_invoked_handlers k = [] →
  SKContext.error_occurred ctx = false →
  SKFunction.invoke_async A None None (Some ctx) None None st = (ctxA, stA) →
  SKContext.error_occurred ctxA = false →
  SKFunction.invoke_async B None None (Some ctxA) None None stA = (ctxB, stB) →
  run_async (S fuel) k [PyFunction A; PyFunction B] (Some ctx) None None st
    = (RunReturn ctxB, stB,
       [Invoked 0 (SKFunction.describe A); Invoked 1 (SKFunction.describe B)]).
Proof.
  intros Hpre Hpost Hok HA HokA HB. unfold run_async. simpl seed_context.
  rewrite for_functions_unfold, while_true_unfold.
  rewrite (no_handlers_pass k A 0 ctx st ctxA stA Hpre Hpost Hok HA), HokA.
  rewrite for_functions_unfold, while_true_unfold.
  rewrite (no_handlers_pass k B 1 ctxA stA ctxB stB Hpre Hpost HokA HB).
  by destruct (SKContext.error_occurred ctxB).
Qed.

(** Registering a handler again under its identity keeps one registration;
    removing a handler that was newly added gives back the handlers there
    were; removing one that is not registered changes nothing. *)
Theorem handlers_are_kept_by_identity (id : nat) (h : invoking_handler World) k :
  add_function_invoking_handler id h (add_function_invoking_handler id h k)
    = add_function_invoking_handler id h k
  ∧ (id ∉ PyDict.keys (_function_invoking_handlers k) →
     remove_function_invoking_handler id (add_function_invoking_handler id h k) = k
     ∧ remove_function_invoking_handler id k = k).
Proof.
  split.
  - unfold add_function_invoking_handler. simpl. by rewrite setitem_setitem.
  - intros Hnew. split.
    + unfold remove_function_invoking_handler, add_function_invoking_handler. simpl.
      rewrite (proj2 (contains_true id _) (keys_setitem_same id h _)).
      rewrite delitem_setitem_new by done. by destruct k.
    + unfold remove_function_invoking_handler.
      rewrite (proj2 (contains_false id _) Hnew). by destruct k.
Qed.
End MorePipeline.

Lemma failed_context_is_returned_at_once_witness :
  let failed := SKContext.fail Examples.ctx0 "boom" Examples.boom_fault in
  Kernel.run_async 1 Examples.k_faulty
    [Kernel.PyFunction Examples.echo; Kernel.PyFunction Examples.boom]
    (Some failed) None None Examples.st0
  = (Kernel.RunReturn failed, Examples.st0, []).
Proof.
  exact (failed_context_is_returned_at_once 0 Examples.k_faulty Examples.echo
           [Kernel.PyFunction Examples.boom]
           (SKContext.fail Examples.ctx0 "boom" Examples.boom_fault)
           Examples.st0 eq_refl).
Defined.

Lemma cancel_before_invocation_stops_run_witness :
  Kernel.run_async 1 Examples.k_cancel
    [Kernel.PyFunction Examples.echo; Kernel.PyFunction Examples.boom]
    (Some Examples.ctx0) None None Examples.st0
  = (Kernel.RunReturn Examples.ctx0, SKFunction.set_world Examples.st0 1, []).
Proof.
  refine (cancel_before_invocation_stops_run 0 Examples.k_cancel Examples.echo _
            Examples.ctx0 Examples.st0 1 eq_refl _).
  eexists. split; reflexivity.
Defined.

Lemma cancel_after_invocation_stops_run_witness :
  ∃ c st', Kernel.run_async 1 Examples.k_cancel_after
             [Kernel.PyFunction Examples.echo; Kernel.PyFunction Examples.boom]
             (Some Examples.ctx0) None None Examples.st0
           = (Kernel.RunReturn c, st',
              [Kernel.Invoked 0 (SKFunction.describe Examples.echo)])
           ∧ SKContext.input c = "What is it?"
           ∧ SKContext.error_occurred c = false.
Proof.
  do 2 eexists. split.
  - refine (cancel_after_invocation_stops_run 0 Examples.k_cancel_after Examples.echo _
              Examples.ctx0 Examples.st0 _ _ _ _ eq_refl _ _ _ _).
    + exists None. repeat split.
    + reflexivity.
    + reflexivity.
    + eexists. split; reflexivity.
  - split; reflexivity.
Defined.

Lemma handler_fault_is_recorded_witness :
  Kernel.run_async 1 Examples.k_faulty
    [Kernel.PyFunction Examples.echo] (Some Examples.ctx0) None None Examples.st0
  = (Kernel.RunReturn (SKContext.fail Examples.ctx0 "boom" Examples.boom_fault),
     SKFunction.set_world Examples.st0 1, []).
Proof.
  exact (proj1 (handler_fault_is_recorded 0 Examples.k_faulty Examples.echo []
                  Examples.ctx0 Examples.st0 eq_refl)
           Examples.boom_fault 1 eq_refl).
Defined.

Lemma pipeline_feeds_context_forward_witness :
  ∃ c, Kernel.run_async 1 Examples.k0
         [Kernel.PyFunction Examples.echo;
          Kernel.PyFunction (Examples.writer Examples.abc_client)]
         (Some Examples.ctx0) None None Examples.st0
       = (Kernel.RunReturn c, Examples.st0,
          [Kernel.Invoked 0 (SKFunction.describe Examples.echo);
           Kernel.Invoked 1 (SKFunction.describe (Examples.writer Examples.abc_client))])
       ∧ SKContext.input c = "abc"
       ∧ ContextVariables.variables (SKContext.variables c) !! "question" = Some "hi".
Proof.
  eexists. split.
  - refine (pipeline_feeds_context_forward 0 Examples.k0 Examples.echo
              (Examples.writer Examples.abc_client) Examples.ctx0 Examples.st0
              _ _ _ _ eq_refl eq_refl eq_refl _ _ _); reflexivity.
  - split; reflexivity.
Defined.

Lemma handlers_are_kept_by_identity_witness :
  Kernel.remove_function_invoking_handler 1 Examples.k_faulty = Examples.k0.
Proof.
  refine (proj1 (proj2 (handlers_are_kept_by_identity 1 _ Examples.k0) _)).
  apply not_elem_of_nil.
Defined.

Lemma while_true_without_end_witness :
  (Kernel.while_true 1000 Examples.k_always (Kernel.PyFunction Examples.echo) 0
     Examples.ctx0 Examples.st0).1.1 = Kernel.LoopOutOfFuel.
Proof.
  refine (while_true_without_end (λ c _, SKContext.error_occurred c = false)
            Examples.k_always Examples.echo 0 _ 1000 Examples.ctx0 Examples.st0 eq_refl).
  intros ctx st Hok. do 2 eexists. split.
  - split; [exact Hok|]. do 3 eexists.
    split; [exists None; repeat split|].
    split; [reflexivity|].
    split; [unfold SKFunction._ensure_context_has_skills; simpl;
            destruct (SKContext.skills ctx); exact Hok|].
    split; [eexists; split; [reflexivity | split; reflexivity] | reflexivity].
  - unfold SKFunction._ensure_context_has_skills. simpl.
    destruct (SKContext.skills ctx); exact Hok.
Defined.

(** ** Invocation and streaming, continued *)
Section MoreInvocation.
Context {World : Type} `{PromptTemplatingEngine World}.
Import SKFunction.
Implicit Types (f : SKFunction World) (st : Store World) (ctx : SKContext).

Definition no_client : exn := Exn ValueError "AI LLM service cannot be `None`".

(** A semantic function to which no AI client is attached fails when it is
    invoked: the Context comes back marked failed with the [ValueError] of the
    delegate, before the template is rendered or anything is sent (the world
    and the chat templates are as they were). *)
Theorem semantic_function_without_client_fails f cfg ctx st :
  _function f = Semantic cfg →
  _ai_service f = None →
  invoke_async f None None (Some ctx) None None st
    = (SKContext.fail (_ensure_context_has_skills f ctx) (str no_client) no_client, st).
Proof.
  intros Hf Hc. unfold invoke_async, try_body, is_semantic. rewrite Hf. simpl.
  unfold _invoke_semantic_async, _local_func. by rewrite Hf, Hc.
Qed.

(** The setters that bind a client or request settings refuse a native
    function with the [KernelException] for an invalid function type, and
    refuse [None] with a [ValueError] whatever the function. *)
Theorem native_function_cannot_be_bound f client settings :
  (is_semantic f = false →
   set_ai_service f (Some client) = Raise kernel_exception_invalid_semantic
   ∧ set_chat_service f (Some client) = Raise kernel_exception_invalid_semantic
   ∧ set_ai_configuration f (Some settings) = Raise kernel_exception_invalid_semantic
   ∧ set_chat_configuration f (Some settings) = Raise kernel_exception_invalid_semantic)
  ∧ (∃ e1 e2 e3 e4,
       set_ai_service f None = Raise e1 ∧ exn_class e1 = ValueError
       ∧ set_chat_service f None = Raise e2 ∧ exn_class e2 = ValueError
       ∧ set_ai_configuration f None = Raise e3 ∧ exn_class e3 = ValueError
       ∧ set_chat_configuration f None = Raise e4 ∧ exn_class e4 = ValueError).
Proof.
  split.
  - intros Hn. unfold set_ai_service, set_chat_service, set_ai_configuration,
      set_chat_configuration, _verify_is_semantic. by rewrite Hn.
  - do 4 eexists. by repeat split.
Qed.

(** Binding then invoking: once [set_ai_service] has attached a client to a
    semantic function over a text template, an invocation in which the
    rendering and the completion succeed returns the Context with the
    completion in its input slot and no error. *)
Theorem bound_function_completes f f' cfg tpl client ctx st prompt w1 completion w2 :
  _function f = Semantic cfg →
  prompt_template cfg = TextTemplate tpl →
  set_ai_service f (Some client) = Ret f' →
  render_async tpl (_ensure_context_has_skills f ctx) (world st) = (Ret prompt, w1) →
  complete_async client prompt (_ai_request_settings f) w1 = (Ret completion, w2) →
  invoke_async f' None None (Some ctx) None None st
    = (SKContext.update_input (_ensure_context_has_skills f ctx) completion,
       set_world st w2).
Proof.
  intros Hf Ht Hset Hr Hc.
  unfold set_ai_service, _verify_is_semantic, is_semantic in Hset.
  rewrite Hf in Hset. injection Hset as <-.
  unfold invoke_async, try_body, is_semantic. simpl. rewrite Hf. simpl.
  unfold _invoke_semantic_async, _local_func. simpl. rewrite Hf, Ht.
  change (_ensure_context_has_skills (with_ai_service f client) ctx)
    with (_ensure_context_has_skills f ctx).
  rewrite Hr, Hc. simpl. by rewrite set_variables_same.
Qed.

Lemma deref_set_template st loc (chat : ChatPromptTemplate) (w : World) :
  deref (set_template st loc chat w) loc = chat.
Proof. unfold deref, set_template. simpl. by rewrite lookup_insert_eq. Qed.

(** A chat completion that succeeds is recorded in the chat template and on
    the Context: the template gains the tool message, if the reply carries
    one, and then the assistant's message; the input slot takes the completion
    when there is one; the tool message and the function call are put in the
    bag of objects under their reserved keys. *)
Theorem chat_reply_is_recorded f cfg loc client ctx st messages chat1 w1
    result completion tool_message function_call w2 :
  _function f = Semantic cfg →
  prompt_template cfg = ChatTemplate loc →
  _ai_service f = Some client →
  ChatPromptTemplate.render_messages_async (deref st loc)
    (_ensure_context_has_skills f ctx) (world st) = (Ret messages, chat1, w1) →
  complete_chat_async client messages (_ai_request_settings f) w1 = (Ret result, w2) →
  unpack_chat_result result = Ret (completion, tool_message, function_call) →
  let '(c, st') := invoke_async f None None (Some ctx) None None st in
  SKContext.error_occurred c = SKContext.error_occurred ctx
  ∧ SKContext.input c = default (SKContext.input ctx) completion
  ∧ ChatMessage.role <$> ChatPromptTemplate.messages (deref st' loc)
    = (ChatMessage.role <$> ChatPromptTemplate.messages chat1)
      ++ (if truthy_opt tool_message then [Some "tool"] else [])
      ++ [Some "assistant"]
  ∧ (truthy_opt tool_message = true →
     SKContext.objects c !! "tool_message" = tool_message)
  ∧ (∀ fc, function_call = Some fc →
           SKContext.objects c !! "function_call" = Some fc).
Proof.
  intros Hf Ht Hc Hr Hcompl Hunpack.
  unfold invoke_async, try_body, is_semantic. rewrite Hf. simpl.
  unfold _invoke_semantic_async, _local_func. rewrite Hf, Hc, Ht, Hr. simpl.
  rewrite Hcompl. simpl. rewrite Hunpack.
  assert (∀ c0 : SKContext,
            SKContext.error_occurred (_ensure_context_has_skills f c0)
              = SKContext.error_occurred c0
            ∧ SKContext.input (_ensure_context_has_skills f c0) = SKContext.input c0
            ∧ SKContext.objects (_ensure_context_has_skills f c0) = SKContext.objects c0)
    as Hens.
  { intros c0. unfold _ensure_context_has_skills. by destruct (SKContext.skills c0). }
  destruct (Hens ctx) as (He & Hi & Ho).
  destruct tool_message as [tm|]; simpl; [destruct (truthy tm) eqn:Htm|];
    destruct completion as [co|], function_call as [fc|]; simpl;
    rewrite deref_set_template; unfold ChatPromptTemplate.add_message; simpl;
    rewrite ?fmap_app; simpl; rewrite ?He, ?Hi;
    (split; [done|]); (split; [done|]);
    (split; [by rewrite <- ?app_assoc|]);
    (split; [intros ? | intros ? ?]); by simplify_map_eq.
Qed.
End MoreInvocation.

Section MoreInvocation2.
Context {World : Type} `{PromptTemplatingEngine World}.
Import SKFunction.
Implicit Types (f : SKFunction World) (st : Store World) (ctx : SKContext).

Definition index_error : exn := Exn IndexError "list index out of range".

(** A chat client that answers with an empty list of completions makes the
    invocation fail with the [IndexError] of [result[0]], recorded on the
    Context; the template keeps what the rendering left and gets no reply. *)
Theorem empty_chat_result_is_a_recorded_fault f cfg loc client ctx st messages chat1 w1 w2 :
  _function f = Semantic cfg →
  prompt_template cfg = ChatTemplate loc →
  _ai_service f = Some client →
  ChatPromptTemplate.render_messages_async (deref st loc)
    (_ensure_context_has_skills f ctx) (world st) = (Ret messages, chat1, w1) →
  complete_chat_async client messages (_ai_request_settings f) w1
    = (Ret (ReplyList []), w2) →
  let '(c, st') := invoke_async f None None (Some ctx) None None st in
  SKContext.error_occurred c = true
  ∧ SKContext.last_error_description c = str index_error
  ∧ SKContext.last_exception c = Some index_error
  ∧ deref st' loc = chat1.
Proof.
  intros Hf Ht Hc Hr Hcompl.
  unfold invoke_async, try_body, is_semantic. rewrite Hf. simpl.
  unfold _invoke_semantic_async, _local_func. rewrite Hf, Hc, Ht, Hr. simpl.
  rewrite Hcompl. simpl. by rewrite deref_set_template.
Qed.

(** A fault of the template engine while the messages of a chat function are
    rendered is recorded on the Context in both modes of invocation: the
    non-streaming delegate lets it through and [invoke_async] records it; the
    streaming delegate records it itself, the stream is empty and the consumer
    gets no exception.  In both cases the template keeps the messages as the
    rendering left them. *)
Theorem chat_render_fault_is_recorded f cfg loc client ctx st e chat1 w1 :
  _function f = Semantic cfg →
  prompt_template cfg = ChatTemplate loc →
  _ai_service f = Some client →
  ChatPromptTemplate.render_messages_async (deref st loc)
    (_ensure_context_has_skills f ctx) (world st) = (Raise e, chat1, w1) →
  invoke_async f None None (Some ctx) None None st
    = (SKContext.fail (_ensure_context_has_skills f ctx) (str e) e,
       set_template st loc chat1 w1)
  ∧ invoke_stream_async f None None (Some ctx) None None st
    = ({| yielded := []; raised := None;
          context_after := SKContext.fail (_ensure_context_has_skills f ctx) (str e) e |},
       set_template st loc chat1 w1).
Proof.
  intros Hf Ht Hc Hr. split.
  - unfold invoke_async, try_body, is_semantic. rewrite Hf. simpl.
    unfold _invoke_semantic_async, _local_func. by rewrite Hf, Hc, Ht, Hr.
  - unfold invoke_stream_async, is_semantic. rewrite Hf. simpl.
    unfold _invoke_semantic_stream_async, _local_stream_func.
    by rewrite Hf, Hc, Ht, Hr.
Qed.

(** A fault raised while a native function streams reaches the consumer as
    the [KernelException] for a failed invocation, after the chunks already
    delivered, and the Context is marked failed with the original fault; run
    through [run_stream_async] as the only function, the stream behaves the
    same. *)
Theorem native_stream_fault_is_wrapped fuel (k : Kernel World) f method ctx st
    chunks e c w' :
  _function f = Native method →
  iterate method (_ensure_context_has_skills f ctx) (world st)
    = ({| yielded := chunks; raised := Some e; context_after := c |}, w') →
  let failed :=
    {| yielded := chunks; raised := Some kernel_exception_stream;
       context_after := SKContext.fail c (str e) e |} in
  invoke_stream_async f None None (Some ctx) None None st = (failed, set_world st w')
  ∧ Kernel.run_stream_async fuel k [Kernel.PyFunction f] (Some ctx) None None st
    = (Kernel.Streamed failed, set_world st w', []).
Proof.
  intros Hf Hit failed.
  assert (invoke_stream_async f None None (Some ctx) None None st
          = (failed, set_world st w')) as Hinv.
  { unfold invoke_stream_async, is_semantic. rewrite Hf. simpl.
    unfold _invoke_native_stream_async. by rewrite Hf, Hit. }
  split; [exact Hinv|].
  unfold Kernel.run_stream_async, Kernel.stream_stage. simpl Kernel.seed_context.
  by rewrite Hinv.
Qed.

(** A native function that streams to its end leaves the concatenation of its
    chunks, in order, in the input slot of the Context; run through
    [run_stream_async] as the only function it delivers these chunks and no
    exception. *)
Theorem native_stream_writes_concatenation fuel (k : Kernel World) f method ctx st
    chunks c w' :
  _function f = Native method →
  iterate method (_ensure_context_has_skills f ctx) (world st)
    = ({| yielded := chunks; raised := None; context_after := c |}, w') →
  let streamed :=
    {| yielded := chunks; raised := None;
       context_after := SKContext.update_input c (String.concat "" chunks) |} in
  Kernel.run_stream_async fuel k [Kernel.PyFunction f] (Some ctx) None None st
    = (Kernel.Streamed streamed, set_world st w', [])
  ∧ SKContext.input (context_after streamed) = String.concat "" chunks.
Proof.
  intros Hf Hit streamed. split; [|done].
  unfold Kernel.run_stream_async, Kernel.stream_stage. simpl Kernel.seed_context.
  unfold invoke_stream_async, is_semantic. rewrite Hf. simpl.
  unfold _invoke_native_stream_async. rewrite Hf, Hit. simpl.
  by rewrite accumulate_from_empty.
Qed.

End MoreInvocation2.

Lemma semantic_function_without_client_fails_witness :
  ∃ c, SKFunction.invoke_async Examples.unbound_writer None None (Some Examples.ctx0)
         None None Examples.st0 = (c, Examples.st0)
       ∧ SKContext.error_occurred c = true
       ∧ SKContext.last_error_description c = "AI LLM service cannot be `None`".
Proof.
  eexists. split.
  - exact (semantic_function_without_client_fails Examples.unbound_writer _
             Examples.ctx0 Examples.st0 eq_refl eq_refl).
  - split; reflexivity.
Defined.

Lemma native_function_cannot_be_bound_witness :
  SKFunction.set_ai_service Examples.echo (Some Examples.abc_client)
  = Raise SKFunction.kernel_exception_invalid_semantic.
Proof.
  exact (proj1 (proj1 (native_function_cannot_be_bound Examples.echo
                         Examples.abc_client ∅) eq_refl)).
Defined.

Lemma bound_function_completes_witness :
  ∃ f', SKFunction.set_ai_service Examples.unbound_writer (Some Examples.abc_client)
        = Ret f'
        ∧ SKFunction.invoke_async f' None None (Some Examples.ctx0) None None Examples.st0
          = (SKContext.update_input Examples.ctx0 "abc", Examples.st0).
Proof.
  eexists. split; [reflexivity|].
  exact (bound_function_completes Examples.unbound_writer _ _ "Write."
           Examples.abc_client Examples.ctx0 Examples.st0 "Write." 0 "abc" 0
           eq_refl eq_refl eq_refl eq_refl eq_refl).
Defined.

Lemma chat_reply_is_recorded_witness :
  let '(c, st') :=
    SKFunction.invoke_async (Examples.chatter ∅) None None (Some Examples.ctx0)
      None None Examples.st_chat in
  SKContext.input c = "abc"
  ∧ ChatMessage.role <$> ChatPromptTemplate.messages (SKFunction.deref st' 0)
    = [Some "system"; Some "user"; Some "tool"; Some "assistant"]
  ∧ SKContext.objects c !! "function_call" = Some "call".
Proof.
  pose proof (chat_reply_is_recorded (Examples.chatter ∅) _ 0 Examples.tool_client
                Examples.ctx0 Examples.st_chat _ _ 0 _ (Some "abc") (Some "T")
                (Some "call") 0 eq_refl eq_refl eq_refl eq_refl eq_refl eq_refl) as Hrec.
  destruct (SKFunction.invoke_async (Examples.chatter ∅) None None (Some Examples.ctx0)
              None None Examples.st_chat) as [c st'].
  destruct Hrec as (_ & Hin & Hroles & _ & Hcall).
  split; [exact Hin|]. split; [exact Hroles|]. exact (Hcall "call" eq_refl).
Defined.

Lemma empty_chat_result_is_a_recorded_fault_witness :
  let '(c, st') :=
    SKFunction.invoke_async (Examples.chatter {[ "n" := "0" ]}) None None
      (Some Examples.ctx0) None None Examples.st_chat in
  SKContext.error_occurred c = true
  ∧ SKContext.last_error_description c = "list index out of range".
Proof.
  pose proof (empty_chat_result_is_a_recorded_fault (Examples.chatter {[ "n" := "0" ]})
                _ 0 Examples.tool_client Examples.ctx0 Examples.st_chat _ _ 0 0
                eq_refl eq_refl eq_refl eq_refl eq_refl) as Hrec.
  destruct (SKFunction.invoke_async (Examples.chatter {[ "n" := "0" ]}) None None
              (Some Examples.ctx0) None None Examples.st_chat) as [c st'].
  destruct Hrec as (Herr & Hdesc & _). split; [exact Herr | exact Hdesc].
Defined.

Lemma chat_render_fault_is_recorded_witness :
  ∃ c st',
    SKFunction.invoke_async FailingExamples.chatter None None (Some Examples.ctx0)
      None None FailingExamples.st_chat = (c, st')
    ∧ SKContext.last_error_description c = "no such variable"
    ∧ ChatMessage.role <$> ChatPromptTemplate.messages (SKFunction.deref st' 0)
      = [Some "system"; Some "user"].
Proof.
  do 2 eexists. split.
  - refine (proj1 (chat_render_fault_is_recorded FailingExamples.chatter _ 0
                     FailingExamples.client Examples.ctx0 FailingExamples.st_chat
                     _ _ _ eq_refl eq_refl eq_refl _)).
    reflexivity.
  - split; reflexivity.
Defined.

Lemma native_stream_fault_is_wrapped_witness :
  Kernel.run_stream_async 0 Examples.k0 [Kernel.PyFunction Examples.boom]
    (Some Examples.ctx0) None None Examples.st0
  = (Kernel.Streamed
       {| yielded := []; raised := Some SKFunction.kernel_exception_stream;
          context_after := SKContext.fail Examples.ctx0 "boom" Examples.boom_fault |},
     Examples.st0, []).
Proof.
  exact (proj2 (native_stream_fault_is_wrapped 0 Examples.k0 Examples.boom _
                  Examples.ctx0 Examples.st0 [] Examples.boom_fault Examples.ctx0 0
                  eq_refl eq_refl)).
Defined.

Lemma native_stream_writes_concatenation_witness :
  Kernel.run_stream_async 0 Examples.k0 [Kernel.PyFunction Examples.echo]
    (Some Examples.ctx0) None None Examples.st0
  = (Kernel.Streamed
       {| yielded := ["What "; "is it?"]; raised := None;
          context_after := SKContext.update_input Examples.ctx0 "What is it?" |},
     Examples.st0, []).
Proof.
  exact (proj1 (native_stream_writes_concatenation 0 Examples.k0 Examples.echo _
                  Examples.ctx0 Examples.st0 ["What "; "is it?"] Examples.ctx0 0
                  eq_refl eq_refl)).
Defined.

(** ** The parameters of a native function *)
Section Parameters.
Import SKFunction.
Variable valid_name : string → bool.

(** A descriptor with its three mandatory keys and a name that passes
    the validation. *)
Definition well_formed (p : parameter_descriptor) : Prop :=
  ∃ n d v, d_name p = Some n ∧ d_description p = Some d ∧ d_default_value p = Some v
           ∧ valid_name n = true.

(** The view of a descriptor: the type is [string] and the parameter is not
    required unless the descriptor says otherwise. *)
Definition view_of (p : parameter_descriptor) : ParameterView :=
  {| name := default "" (d_name p);
     description := default "" (d_description p);
     default_value := default "" (d_default_value p);
     type_ := default "string" (d_type p);
     required := default false (d_required p) |}.

Lemma context_parameters_well_formed (params : list parameter_descriptor) :
  Forall well_formed params →
  context_parameters valid_name params = Ret (view_of <$> params).
Proof.
  induction 1 as [|p params (n & d & v & Hn & Hd & Hv & Hvalid) _ IH]; [done|].
  simpl. rewrite Hn, Hd, Hv. unfold make_parameter_view. rewrite Hvalid, IH.
  unfold view_of. by rewrite Hn, Hd, Hv.
Qed.

Lemma context_parameters_incomplete (good : list parameter_descriptor) bad rest :
  Forall well_formed good →
  d_name bad = None ∨ d_description bad = None ∨ d_default_value bad = None →
  ∃ e, context_parameters valid_name (good ++ bad :: rest) = Raise e
       ∧ exn_class e = AssertionError.
Proof.
  induction 1 as [|p good (n & d & v & Hn & Hd & Hv & Hvalid) _ IH]; intros Hbad.
  - simpl. destruct (d_name bad); [|by eexists].
    destruct (d_description bad); [|by eexists].
    destruct (d_default_value bad); [|by eexists].
    by destruct Hbad as [?|[?|?]].
  - simpl. rewrite Hn, Hd, Hv. unfold make_parameter_view. rewrite Hvalid.
    destruct (IH Hbad) as (e & -> & He). by exists e.
Qed.

(** The parameter list of a native function: the parameter [input], of type
    [string] and not required, when the method has a non-empty input
    description, followed by the context parameters in the order of their
    declaration, each of type [string] and not required unless its descriptor
    says otherwise. *)
Theorem native_parameters_in_declaration_order (method : decorated_method)
    (params : list parameter_descriptor) :
  is_Some (sk_function method) →
  is_Some (sk_function_name method) →
  default [] (sk_function_context_parameters method) = params →
  Forall well_formed params →
  valid_name "input" = true →
  native_parameters valid_name (Some method)
  = Ret ((if truthy_opt (sk_function_input_description method)
          then [ {| name := "input";
                    description := default "" (sk_function_input_description method);
                    default_value := sk_function_input_default_value method;
                    type_ := "string";
                    required := false |} ]
          else [])
         ++ (view_of <$> params)).
Proof.
  intros [b Hb] [n Hn] Hparams Hwf Hinput. unfold native_parameters.
  rewrite Hb, Hn, Hparams, (context_parameters_well_formed params Hwf).
  unfold make_parameter_view. rewrite Hinput.
  by destruct (truthy_opt (sk_function_input_description method)).
Qed.

(** A context parameter without a name, a description or a default value
    makes [from_native_method] fail its assertion: no function is built. *)
Theorem native_parameters_rejects_incomplete_descriptor (method : decorated_method)
    (good : list parameter_descriptor) bad rest :
  is_Some (sk_function method) →
  is_Some (sk_function_name method) →
  sk_function_context_parameters method = Some (good ++ bad :: rest) →
  Forall well_formed good →
  d_name bad = None ∨ d_description bad = None ∨ d_default_value bad = None →
  ∃ e, native_parameters valid_name (Some method) = Raise e
       ∧ exn_class e = AssertionError.
Proof.
  intros [b Hb] [n Hn] Hparams Hgood Hbad. unfold native_parameters.
  rewrite Hb, Hn, Hparams. simpl.
  destruct (context_parameters_incomplete good bad rest Hgood Hbad) as (e & -> & He).
  by exists e.
Qed.
End Parameters.

Lemma native_parameters_in_declaration_order_witness :
  let method :=
    {| SKFunction.sk_function := Some true;
       SKFunction.sk_function_name := Some "mock_function";
       SKFunction.sk_function_description := "Mock description";
       SKFunction.sk_function_input_description := Some "Mock input description";
       SKFunction.sk_function_input_default_value := "default_input_value";
       SKFunction.sk_function_context_parameters :=
         Some [ {| SKFunction.d_name := Some "param1";
                   SKFunction.d_description := Some "Param 1 description";
                   SKFunction.d_default_value := Some "default_param1_value";
                   SKFunction.d_type := None;
                   SKFunction.d_required := None |} ] |} in
  SKFunction.native_parameters truthy (Some method)
  = Ret [ {| SKFunction.name := "input";
             SKFunction.description := "Mock input description";
             SKFunction.default_value := "default_input_value";
             SKFunction.type_ := "string";
             SKFunction.required := false |};
          {| SKFunction.name := "param1";
             SKFunction.description := "Param 1 description";
             SKFunction.default_value := "default_param1_value";
             SKFunction.type_ := "string";
             SKFunction.required := false |} ].
Proof.
  intros method.
  refine (native_parameters_in_declaration_order truthy method _ _ _ eq_refl _ eq_refl).
  - by eexists.
  - by eexists.
  - repeat constructor. by do 3 eexists.
Defined.

Lemma native_parameters_rejects_incomplete_descriptor_witness :
  let bad :=
    {| SKFunction.d_name := Some "param1";
       SKFunction.d_description := None;
       SKFunction.d_default_value := Some "v";
       SKFunction.d_type := None;
       SKFunction.d_required := None |} in
  let method :=
    {| SKFunction.sk_function := Some true;
       SKFunction.sk_function_name := Some "mock_function";
       SKFunction.sk_function_description := "Mock description";
       SKFunction.sk_function_input_description := None;
       SKFunction.sk_function_input_default_value := "";
       SKFunction.sk_function_context_parameters := Some [bad] |} in
  ∃ e, SKFunction.native_parameters truthy (Some method) = Raise e
       ∧ exn_class e = AssertionError.
Proof.
  intros bad method.
  refine (native_parameters_rejects_incomplete_descriptor truthy method [] bad []
            _ _ eq_refl _ _).
  - by eexists.
  - by eexists.
  - constructor.
  - right. left. reflexivity.
Defined.

(** ** Chat templates, continued *)
Section MoreChatFacts.
Context {World : Type} `{PromptTemplatingEngine World}.
Import ChatPromptTemplate.
Implicit Types (m : ChatMessage) (t : ChatPromptTemplate) (ctx : SKContext).

(** A message is rendered once: after a call of [render_message_async] that
    raised nothing, further calls leave the message and the world as they are,
    whatever the Context they are given. *)
Theorem message_is_rendered_once m ctx (w : World) m1 w1 ctx2 w2 :
  ChatMessage.render_message_async m ctx w = (m1, None, w1) →
  ChatMessage.render_message_async m1 ctx2 w2 = (m1, None, w2).
Proof.
  unfold ChatMessage.render_message_async.
  destruct (ChatMessage.fixed_content m) as [c|] eqn:Hc.
  - intros [= <- _]. by rewrite Hc.
  - destruct (ChatMessage.content_template m) as [tpl|] eqn:Ht.
    + destruct (render_async tpl ctx w) as [[s|e] w']; [|done].
      by intros [= <- _].
    + intros [= <- _]. by rewrite Hc, Ht.
Qed.

(** A message that has nothing left to render. *)
Definition settled m : Prop :=
  ChatMessage.fixed_content m = None → ChatMessage.content_template m = None.

Lemma gather_render_settles (ms : list ChatMessage) ctx : ∀ (w : World) ms1 w1,
  gather_render ms ctx w = (ms1, None, w1) → Forall settled ms1.
Proof.
  induction ms as [|m ms IH]; intros w ms1 w1; simpl.
  - by intros [= <- _].
  - destruct (ChatMessage.render_message_async m ctx w) as [[m1 e1] w'] eqn:Hm.
    destruct (gather_render ms ctx w') as [[ms' e2] w''] eqn:Hms.
    destruct e1 as [e1|]; [done|]. intros [= <- -> <-].
    constructor; [|by eapply IH].
    unfold ChatMessage.render_message_async in Hm. unfold settled.
    destruct (ChatMessage.fixed_content m) as [c|] eqn:Hc.
    + injection Hm as <- _. by rewrite Hc.
    + destruct (ChatMessage.content_template m) as [tpl|] eqn:Ht.
      * destruct (render_async tpl ctx w) as [[s|e] wr]; [|done].
        by injection Hm as <- _.
      * by injection Hm as <- _.
Qed.

Lemma gather_render_settled (ms : list ChatMessage) ctx (w : World) :
  Forall settled ms → gather_render ms ctx w = (ms, None, w).
Proof.
  induction 1 as [|m ms Hm _ IH]; [done|]. simpl.
  assert (ChatMessage.render_message_async m ctx w = (m, None, w)) as ->.
  { unfold ChatMessage.render_message_async.
    destruct (ChatMessage.fixed_content m) eqn:Hc; [done|]. by rewrite (Hm Hc). }
  by rewrite IH.
Qed.

Lemma ends_without_user_roles t t' :
  ChatMessage.role <$> messages t = ChatMessage.role <$> messages t' →
  ends_without_user t = ends_without_user t'.
Proof.
  intros Hroles. unfold ends_without_user.
  assert (ChatMessage.role <$> last (messages t)
          = ChatMessage.role <$> last (messages t')) as Hlast
    by (by rewrite <- !fmap_last, Hroles).
  destruct (last (messages t)) as [m|], (last (messages t')) as [m'|];
    simpl in Hlast; try done.
  injection Hlast as ->. done.
Qed.

Lemma ends_without_user_after_user t text :
  ends_without_user (add_user_message t text) = false.
Proof.
  unfold ends_without_user, add_user_message, add_message. simpl.
  by rewrite last_snoc.
Qed.

(** Rendering the messages a second time changes nothing: when
    [render_messages_async] has succeeded, a further call, with any Context,
    appends no message, does not call the engine (the world is untouched)
    and returns the same list. *)
Theorem rendering_again_changes_nothing t ctx (w : World) dicts t1 w1 ctx2 w2 :
  render_messages_async t ctx w = (Ret dicts, t1, w1) →
  render_messages_async t1 ctx2 w2 = (Ret dicts, t1, w2).
Proof.
  unfold render_messages_async at 1.
  set (t0 := if ends_without_user t then add_user_message t (template t) else t).
  pose proof (gather_render_frame (messages t0) ctx w) as [Hroles _].
  destruct (gather_render (messages t0) ctx w) as [[ms e] w'] eqn:Hg.
  destruct e as [e|]; [done|]. intros [= <- <- <-].
  simpl in Hroles.
  assert (ends_without_user
            {| template := template t0; prompt_config := prompt_config t0;
               messages := ms |} = false) as Hends.
  { rewrite (ends_without_user_roles _ t0) by done.
    subst t0. destruct (ends_without_user t) eqn:Ht; [|done].
    apply ends_without_user_after_user. }
  unfold render_messages_async. rewrite Hends. simpl.
  by rewrite (gather_render_settled ms ctx2 w2 (gather_render_settles _ _ _ _ _ Hg)).
Qed.
End MoreChatFacts.

Section Restore.
Import ChatPromptTemplate.
Implicit Types (t : ChatPromptTemplate) (pairs : list (string * string)).




End Restore.



Lemma message_is_rendered_once_witness :
  let m := {| ChatMessage.role := Some "user"; ChatMessage.fixed_content := None;
              ChatMessage.content_template := Some "U" |} in
  let m1 := {| ChatMessage.role := Some "user"; ChatMessage.fixed_content := Some "U";
               ChatMessage.content_template := Some "U" |} in
  ChatMessage.render_message_async m Examples.ctx0 0 = (m1, None, 0)
  ∧ ChatMessage.render_message_async m1
      (SKContext.update_input Examples.ctx0 "other") 5 = (m1, None, 5).
Proof.
  intros m m1. split; [reflexivity|].
  exact (message_is_rendered_once m Examples.ctx0 0 m1 0 _ 5 eq_refl).
Defined.

Lemma rendering_again_changes_nothing_witness :
  ∃ dicts t1,
    ChatPromptTemplate.render_messages_async Examples.empty_chat Examples.ctx0 0
      = (Ret dicts, t1, 0)
    ∧ length (ChatPromptTemplate.messages t1) = 1
    ∧ ChatPromptTemplate.render_messages_async t1 Examples.ctx0 3 = (Ret dicts, t1, 3).
Proof.
  do 2 eexists. split; [reflexivity|]. split; [reflexivity|].
  exact (rendering_again_changes_nothing Examples.empty_chat Examples.ctx0 0 _ _ 0
           Examples.ctx0 3 eq_refl).
Defined.
